(** * The SignalFx dashboard resource of terraform-provider-signalform

    A shallow embedding of [src/signalform/dashboard.go]: the translation of
    a dashboard resource description into the payload handed to the JSON
    encoder, and the four lifecycle handlers as programs over the HTTP
    helper calls of the provider. *)

From stdpp Require Import gmap strings list fin_maps sorting.
From Stdlib Require Import ZArith DecimalString.
From Stdlib.Strings Require Import Byte.

Set Warnings "-register-all".

(** ** Go's [int]

    The provider is built for 64-bit targets, where [int] is a 64-bit
    two's-complement integer whose arithmetic wraps around silently. *)

Module Go.

Definition int_bits : Z := 64.
Definition int_min : Z := (- 2 ^ 63)%Z.
Definition int_max : Z := (2 ^ 63 - 1)%Z.

Definition is_int (z : Z) : Prop := (int_min ≤ z ≤ int_max)%Z.

(** The value of an exact result once stored in an [int]. *)
Definition wrap (z : Z) : Z := ((z - int_min) `mod` 2 ^ int_bits + int_min)%Z.

(** [a * b] on [int]. *)
Definition mul (a b : Z) : Z := wrap (a * b).

(** [error]: [None] is [nil], [Some msg] an error whose [Error()] is [msg]. *)
Definition error : Type := option string.

(** The two results of a call returning [(T, error)]. *)
Inductive result (T : Type) : Type :=
  | Ok (v : T)
  | Err (msg : string).

Arguments Ok {T} v.
Arguments Err {T} msg.

(** [fmt.Errorf(prefix + "%s", msg)] *)
Definition Errorf_s (prefix msg : string) : error := Some (prefix +:+ msg).

(** [fmt.Sprintf("%s/%s", a, b)] *)
Definition Sprintf_s_slash_s (a b : string) : string := a +:+ "/" +:+ b.

End Go.

(** ** Values stored in a [map[string]interface{}]

    Only the dynamic types this file puts into a payload occur: strings,
    ints, bools, slices and string-keyed maps. *)

Inductive value : Type :=
  | VString (s : string)
  | VInt (n : Z)
  | VBool (b : bool)
  | VList (l : list value)
  | VMap (m : gmap string value).

(** A [[]map[string]interface{}] stored in an [interface{}]. *)
Definition VMaps (l : list (gmap string value)) : value := VList (VMap <$> l).

(** A [[]interface{}] of strings, as [Set.List()] returns for a set of
    [TypeString]. *)
Definition VStrings (l : list string) : value := VList (VString <$> l).

Definition bytes : Type := list byte.

(** ** The resource description (helper/schema)

    [schema.Set] is kept as the slice its [List()] method returns: the
    elements in the set's own (hash) order. *)

Module schema.

Record Set_ (A : Type) : Type := { List : list A }.

Arguments List {A} s.

(** [d.Get(key).(string)] of an optional string: the zero value when unset. *)
Definition Get_string (field : option string) : string := default EmptyString field.

(** [d.GetOk(key)] of an optional int. helper/schema documents it as
    returning the data for the key and whether or not the key has been set
    to a non-zero value: a key set to the zero value of its type is
    reported like an unset one. *)
Definition GetOk_int (field : option Z) : Z * bool :=
  match field with
  | Some v => (v, negb (v =? 0)%Z)
  | None => (0%Z, false)
  end.

End schema.

(** Elements of the ["chart"] set (lines 53-83 of the schema); the defaults
    of [width] and [height] are already applied when the code reads them. *)
Module ChartElem.

Record t : Type := {
  chart_id : string;
  row : Z;
  column : Z;
  width : Z;
  height : Z
}.

End ChartElem.

(** Elements of the ["variable"] set (lines 89-108). *)
Module VariableElem.

Record t : Type := {
  property : string;
  alias : string;
  values : schema.Set_ string
}.

End VariableElem.

(** Elements of the ["filter"] set (lines 114-134). *)
Module FilterElem.

Record t : Type := {
  property : string;
  negated : bool;
  values : schema.Set_ string
}.

End FilterElem.

(** [*schema.ResourceData] for the dashboard schema (lines 13-136). Optional
    scalar attributes are [None] when the configuration does not set them.
    [last_updated] is a [TypeFloat]; it is kept as the bit pattern of the
    float64, nothing here computes with it. *)
Record ResourceData : Type := {
  Id : string;
  synced : Z;
  last_updated : Z;
  name : string;
  description : option string;
  dashboard_group : string;
  time_start : option Z;
  time_end : option Z;
  chart : schema.Set_ ChartElem.t;
  variable : schema.Set_ VariableElem.t;
  filter : schema.Set_ FilterElem.t
}.

(** ** Payload translation *)

Definition DASHBOARD_API_URL : string := "https://api.signalfx.com/v2/dashboard".

(** [for i, x := range xs { body }] with the loop state threaded through. *)
Fixpoint range_from {A St : Type} (body : nat → A → St → St) (i : nat) (xs : list A) (st : St) : St :=
  match xs with
  | [] => st
  | x :: xs' => range_from body (S i) xs' (body i x st)
  end.

Definition range {A St : Type} (body : nat → A → St → St) (xs : list A) (st : St) : St :=
  range_from body 0 xs st.

(** [make([]map[string]interface{}, n)]: [n] nil maps. *)
Definition make_slice (n : nat) : list (gmap string value) := replicate n ∅.

Definition getDashboardTime (d : ResourceData) : gmap string value :=
  let time : gmap string value := ∅ in
  let time :=
    match schema.GetOk_int (time_start d) with
    | (val, true) => <["start" := VInt (Go.mul val 1000)]> time
    | (_, false) => time
    end in
  let time :=
    match schema.GetOk_int (time_end d) with
    | (val, true) => <["end" := VInt (Go.mul val 1000)]> time
    | (_, false) => time
    end in
  if decide (0 < size time) then time else ∅.

Definition chart_item (chart : ChartElem.t) : gmap string value :=
  let item : gmap string value := ∅ in
  let item := <["chartId" := VString (ChartElem.chart_id chart)]> item in
  let item := <["row" := VInt (ChartElem.row chart)]> item in
  let item := <["column" := VInt (ChartElem.column chart)]> item in
  let item := <["height" := VInt (ChartElem.height chart)]> item in
  let item := <["width" := VInt (ChartElem.width chart)]> item in
  item.

Definition getDashboardCharts (d : ResourceData) : list (gmap string value) :=
  let charts := schema.List (chart d) in
  let charts_list := make_slice (length charts) in
  range (fun i chart charts_list => <[i := chart_item chart]> charts_list)
        charts charts_list.

Definition variable_item (variable : VariableElem.t) : gmap string value :=
  let item : gmap string value := ∅ in
  let item := <["property" := VString (VariableElem.property variable)]> item in
  let item := <["alias" := VString (VariableElem.alias variable)]> item in
  let item := <["value" := VStrings (schema.List (VariableElem.values variable))]> item in
  item.

Definition getDashboardVariables (d : ResourceData) : list (gmap string value) :=
  let variables := schema.List (variable d) in
  let vars_list := make_slice (length variables) in
  range (fun i variable vars_list => <[i := variable_item variable]> vars_list)
        variables vars_list.

Definition filter_item (filter : FilterElem.t) : gmap string value :=
  let item : gmap string value := ∅ in
  let item := <["property" := VString (FilterElem.property filter)]> item in
  let item := <["NOT" := VBool (FilterElem.negated filter)]> item in
  let item := <["value" := VStrings (schema.List (FilterElem.values filter))]> item in
  item.

Definition getDashboardFilters (d : ResourceData) : list (gmap string value) :=
  let filters := schema.List (filter d) in
  let filter_list := make_slice (length filters) in
  range (fun i filter filter_list => <[i := filter_item filter]> filter_list)
        filters filter_list.

(** The [all_filters] map of [getPayloadDashboard] after its three guarded
    assignments (lines 155-164). *)
Definition all_filters (d : ResourceData) : gmap string value :=
  let all_filters : gmap string value := ∅ in
  let all_filters :=
    let filters := getDashboardFilters d in
    if decide (0 < length filters) then <["sources" := VMaps filters]> all_filters
    else all_filters in
  let all_filters :=
    let variables := getDashboardVariables d in
    if decide (0 < length variables) then <["variables" := VMaps variables]> all_filters
    else all_filters in
  let all_filters :=
    let time := getDashboardTime d in
    if decide (0 < size time) then <["time" := VMap time]> all_filters
    else all_filters in
  all_filters.

(** The [payload] map of [getPayloadDashboard] as it is handed to
    [json.Marshal] (lines 149-171). *)
Definition payload (d : ResourceData) : gmap string value :=
  let payload : gmap string value :=
    <["groupId" := VString (dashboard_group d)]>
      (<["description" := VString (schema.Get_string (description d))]>
         (<["name" := VString (name d)]> ∅)) in
  let all_filters := all_filters d in
  let payload :=
    if decide (0 < size all_filters) then <["filters" := VMap all_filters]> payload
    else payload in
  let payload :=
    let charts := getDashboardCharts d in
    if decide (0 < length charts) then <["charts" := VMaps charts]> payload
    else payload in
  payload.

(** [encoding/json] is outside the repository: the encoder is whatever
    function from values to bytes or an error the handlers are linked
    with. *)
Definition Marshaler : Type := value → Go.result bytes.

Definition getPayloadDashboard (json_Marshal : Marshaler) (d : ResourceData) : Go.result bytes :=
  json_Marshal (VMap (payload d)).

(** ** Lifecycle handlers

    The handlers reach the network only through the four helpers
    [resourceCreate], [resourceRead], [resourceUpdate] and [resourceDelete]
    of the provider, which live outside this file. A handler is therefore a
    program that either returns, or asks for one helper call and goes on
    with the [error] the helper returned. *)

(** Modelled from the spec: [signalformConfig], the provider configuration
    whose declaration is not in this file; the handlers read its auth token
    [SfxToken] and nothing else. *)
Record signalformConfig : Type := { SfxToken : string }.

(** Modelled from the spec: the calls of the external HTTP helper, with the
    arguments the handlers pass. The [ResourceData] argument is the pointer
    [d] of the handler: the helper may update the resource behind it, which
    is part of the helper's effect on the world. *)
Inductive HelperCall : Type :=
  | resourceCreate (url token : string) (body : bytes) (d : ResourceData)
  | resourceRead (url token : string) (d : ResourceData)
  | resourceUpdate (url token : string) (body : bytes) (d : ResourceData)
  | resourceDelete (url token : string) (d : ResourceData).

Definition call_url (c : HelperCall) : string :=
  match c with
  | resourceCreate url _ _ _ | resourceRead url _ _
  | resourceUpdate url _ _ _ | resourceDelete url _ _ => url
  end.

Definition call_token (c : HelperCall) : string :=
  match c with
  | resourceCreate _ token _ _ | resourceRead _ token _
  | resourceUpdate _ token _ _ | resourceDelete _ token _ => token
  end.

Inductive Prog (R : Type) : Type :=
  | Ret (r : R)
  | Invoke (c : HelperCall) (k : Go.error → Prog R).

Arguments Ret {R} r.
Arguments Invoke {R} c k.

(** [return helper(...)]: the helper's error is the handler's result. *)
Definition tail_call (c : HelperCall) : Prog Go.error := Invoke c Ret.

(** Running a handler against an implementation of the helper over a world
    [W]: the result, the world afterwards, and the helper calls made, in
    order. *)
Fixpoint run {W R : Type} (helper : HelperCall → W → Go.error * W)
    (p : Prog R) (w : W) : R * W * list HelperCall :=
  match p with
  | Ret r => (r, w, [])
  | Invoke c k =>
      let '(err, w') := helper c w in
      let '(r, w'', calls) := run helper (k err) w' in
      (r, w'', c :: calls)
  end.

Definition calls_of {W R : Type} (helper : HelperCall → W → Go.error * W)
    (p : Prog R) (w : W) : list HelperCall :=
  (run helper p w).2.

Definition dashboardCreate (json_Marshal : Marshaler) (d : ResourceData)
    (meta : signalformConfig) : Prog Go.error :=
  let config := meta in
  match getPayloadDashboard json_Marshal d with
  | Go.Err err => Ret (Go.Errorf_s "Failed creating json payload: " err)
  | Go.Ok payload =>
      tail_call (resourceCreate DASHBOARD_API_URL (SfxToken config) payload d)
  end.

Definition dashboardRead (d : ResourceData) (meta : signalformConfig) : Prog Go.error :=
  let config := meta in
  let url := Go.Sprintf_s_slash_s DASHBOARD_API_URL (Id d) in
  tail_call (resourceRead url (SfxToken config) d).

Definition dashboardUpdate (json_Marshal : Marshaler) (d : ResourceData)
    (meta : signalformConfig) : Prog Go.error :=
  let config := meta in
  match getPayloadDashboard json_Marshal d with
  | Go.Err err => Ret (Go.Errorf_s "Failed creating json payload: " err)
  | Go.Ok payload =>
      let url := Go.Sprintf_s_slash_s DASHBOARD_API_URL (Id d) in
      tail_call (resourceUpdate url (SfxToken config) payload d)
  end.

Definition dashboardDelete (d : ResourceData) (meta : signalformConfig) : Prog Go.error :=
  let config := meta in
  let url := Go.Sprintf_s_slash_s DASHBOARD_API_URL (Id d) in
  tail_call (resourceDelete url (SfxToken config) d).

(** ** Reading a payload back

    The reader follows the renaming of the specification backwards:
    [groupId] is [dashboard_group], [chartId] is [chart_id], [value] is
    [values], [NOT] is [negated]; every value is taken as it stands. A
    group that is absent from the payload reads back as the empty group. *)

Module Reparse.

Definition as_string (v : value) : option string :=
  match v with VString s => Some s | _ => None end.

Definition as_int (v : value) : option Z :=
  match v with VInt n => Some n | _ => None end.

Definition as_bool (v : value) : option bool :=
  match v with VBool b => Some b | _ => None end.

Definition as_list (v : value) : option (list value) :=
  match v with VList l => Some l | _ => None end.

Definition as_map (v : value) : option (gmap string value) :=
  match v with VMap m => Some m | _ => None end.

Definition field {A : Type} (as_ : value → option A) (key : string)
    (m : gmap string value) : option A :=
  m !! key ≫= as_.

Definition string_set (v : value) : option (schema.Set_ string) :=
  l ← as_list v; l' ← mapM as_string l; Some {| schema.List := l' |}.

Definition group (key : string) (m : gmap string value) : option (list value) :=
  match m !! key with
  | None => Some []
  | Some v => as_list v
  end.

Definition chart (v : value) : option ChartElem.t :=
  item ← as_map v;
  chart_id ← field as_string "chartId" item;
  row ← field as_int "row" item;
  column ← field as_int "column" item;
  width ← field as_int "width" item;
  height ← field as_int "height" item;
  Some {| ChartElem.chart_id := chart_id; ChartElem.row := row;
          ChartElem.column := column; ChartElem.width := width;
          ChartElem.height := height |}.

Definition variable (v : value) : option VariableElem.t :=
  item ← as_map v;
  property ← field as_string "property" item;
  alias ← field as_string "alias" item;
  values ← field string_set "value" item;
  Some {| VariableElem.property := property; VariableElem.alias := alias;
          VariableElem.values := values |}.

Definition filter (v : value) : option FilterElem.t :=
  item ← as_map v;
  property ← field as_string "property" item;
  negated ← field as_bool "NOT" item;
  values ← field string_set "value" item;
  Some {| FilterElem.property := property; FilterElem.negated := negated;
          FilterElem.values := values |}.

Definition filters_object (p : gmap string value) : option (gmap string value) :=
  match p !! "filters" with
  | None => Some ∅
  | Some v => as_map v
  end.

Definition name (p : gmap string value) : option string := field as_string "name" p.

Definition description (p : gmap string value) : option string :=
  field as_string "description" p.

Definition dashboard_group (p : gmap string value) : option string :=
  field as_string "groupId" p.

Definition charts (p : gmap string value) : option (list ChartElem.t) :=
  group "charts" p ≫= mapM chart.

Definition variables (p : gmap string value) : option (list VariableElem.t) :=
  af ← filters_object p; group "variables" af ≫= mapM variable.

Definition filters (p : gmap string value) : option (list FilterElem.t) :=
  af ← filters_object p; group "sources" af ≫= mapM filter.

(** The time bound under [key] ([start] or [end]); [None] when the payload
    carries none. *)
Definition time_bound (key : string) (p : gmap string value) : option Z :=
  af ← filters_object p; time ← field as_map "time" af; field as_int key time.

End Reparse.

(** What the payload carries for a time bound of the description: nothing
    when [GetOk] reports it unset, and otherwise the milliseconds computed
    on [int]. *)
Definition time_bound_sent (field : option Z) : option Z :=
  match schema.GetOk_int field with
  | (val, true) => Some (Go.mul val 1000)
  | (_, false) => None
  end.

(** A time bound of the description that is set, and not to 0. *)
Definition bound_set (field : option Z) : Prop := ∃ v, field = Some v ∧ v ≠ 0%Z.

(** ** Descriptions that differ in some attributes only *)

Definition with_time (d : ResourceData) (start end_ : option Z) : ResourceData :=
  {| Id := Id d; synced := synced d; last_updated := last_updated d;
     name := name d; description := description d;
     dashboard_group := dashboard_group d;
     time_start := start; time_end := end_;
     chart := chart d; variable := variable d; filter := filter d |}.

Definition with_computed (d : ResourceData) (synced' last_updated' : Z) : ResourceData :=
  {| Id := Id d; synced := synced'; last_updated := last_updated';
     name := name d; description := description d;
     dashboard_group := dashboard_group d;
     time_start := time_start d; time_end := time_end d;
     chart := chart d; variable := variable d; filter := filter d |}.

(** ** Sample descriptions *)

Module Sample.

Definition no_set {A : Type} : schema.Set_ A := {| schema.List := [] |}.

(** Only the required attributes. *)
Definition bare : ResourceData :=
  {| Id := "Dv1"; synced := 1; last_updated := 0;
     name := "cpu"; description := None; dashboard_group := "Gp7";
     time_start := None; time_end := None;
     chart := no_set; variable := no_set; filter := no_set |}.

Definition chart_abc : ChartElem.t :=
  {| ChartElem.chart_id := "abc"; ChartElem.row := 0; ChartElem.column := 0;
     ChartElem.width := 12; ChartElem.height := 1 |}.

Definition variable_region : VariableElem.t :=
  {| VariableElem.property := "region"; VariableElem.alias := "Region";
     VariableElem.values := {| schema.List := ["eu"; "us"] |} |}.

Definition filter_host : FilterElem.t :=
  {| FilterElem.property := "host"; FilterElem.negated := true;
     FilterElem.values := {| schema.List := ["a"; "b"] |} |}.

(** Every group filled, and both time bounds. *)
Definition full : ResourceData :=
  {| Id := "Dv2"; synced := 0; last_updated := 0;
     name := "hosts"; description := Some "per host"; dashboard_group := "Gp7";
     time_start := Some 10%Z; time_end := Some 20%Z;
     chart := {| schema.List := [chart_abc] |};
     variable := {| schema.List := [variable_region] |};
     filter := {| schema.List := [filter_host] |} |}.

(** The largest number of seconds whose milliseconds still fit an [int] is
    9223372036854775; this start is one second later. *)
Definition late_start : ResourceData := with_time bare (Some 9223372036854776%Z) None.

(** The only time bound is the epoch itself. *)
Definition epoch_start : ResourceData := with_time bare (Some 0%Z) None.

Definition epoch_end : ResourceData := with_time bare None (Some 0%Z).

Definition config : signalformConfig := {| SfxToken := "tok" |}.

(** An encoder that refuses every value, and one that accepts every value. *)
Definition marshal_fails : Marshaler := fun _ => Go.Err "unsupported type".

Definition marshal_ok : Marshaler := fun _ => Go.Ok [x7b; x7d].

(** A helper over a world that counts requests; every request is answered
    with a transport error. *)
Definition helper_unreachable (c : HelperCall) (w : nat) : Go.error * nat :=
  (Some "connection refused", S w).

End Sample.

(** The body of a helper call, for the two calls that send one. *)
Definition call_body (c : HelperCall) : option bytes :=
  match c with
  | resourceCreate _ _ body _ | resourceUpdate _ _ body _ => Some body
  | resourceRead _ _ _ | resourceDelete _ _ _ => None
  end.

(** The [ResourceData] pointer a helper call is given. *)
Definition call_resource (c : HelperCall) : ResourceData :=
  match c with
  | resourceCreate _ _ _ d | resourceRead _ _ d
  | resourceUpdate _ _ _ d | resourceDelete _ _ d => d
  end.

(** The largest and the smallest number of seconds whose milliseconds fit
    an [int]. *)
Definition max_exact_seconds : Z := 9223372036854775.
Definition min_exact_seconds : Z := (-9223372036854775)%Z.

(** ** The schema and the untyped reads

    [dashboardResource] (lines 11-143) declares the attributes of the
    resource, and the translators read them through [d.Get(key)] followed
    by a type assertion, which panics when the value has another dynamic
    type. This part keeps the values as [interface{}] and the assertions as
    they are written; a panic is [None]. *)

Module Dyn.

Inductive ValueType : Type := TypeBool | TypeInt | TypeFloat | TypeString | TypeSet.

(** Values of type [interface{}]: [nil], the scalars, a slice, a
    [*schema.Set] (kept as its [List()]) and a [map[string]interface{}]. A
    float64 is kept as its bit pattern. *)
Inductive any : Type :=
  | Nil
  | Bool (b : bool)
  | Int (n : Z)
  | Float (bits : Z)
  | Str (s : string)
  | Slice (l : list any)
  | SetOf (l : list any)
  | MapOf (m : gmap string any).

(** [schema.Schema] with the fields the file sets ([Description] is
    documentation only and left out); [Default] is [Nil] when none is
    given. [Elem] is absent, a [*schema.Schema] or a [*schema.Resource],
    the latter kept as its attribute table. *)
Inductive Schema : Type :=
  | MkSchema (Type_ : ValueType) (Required Optional Computed : bool)
      (Default : any) (Elem : ElemOf)
with ElemOf : Type :=
  | NoElem
  | ElemSchema (s : Schema)
  | ElemResource (fields : list (string * Schema)).

Definition Type_ (s : Schema) : ValueType :=
  match s with MkSchema ty _ _ _ _ _ => ty end.

Definition Required (s : Schema) : bool :=
  match s with MkSchema _ r _ _ _ _ => r end.

Definition Optional (s : Schema) : bool :=
  match s with MkSchema _ _ o _ _ _ => o end.

Definition Computed (s : Schema) : bool :=
  match s with MkSchema _ _ _ c _ _ => c end.

Definition Default (s : Schema) : any :=
  match s with MkSchema _ _ _ _ dflt _ => dflt end.

Definition Elem (s : Schema) : ElemOf :=
  match s with MkSchema _ _ _ _ _ e => e end.

Definition strings_Elem : ElemOf :=
  ElemSchema (MkSchema TypeString false false false Nil NoElem).

(** Lines 53-83. *)
Definition chart_Elem : list (string * Schema) :=
  [ ("chart_id", MkSchema TypeString true false false Nil NoElem);
    ("row", MkSchema TypeInt false true false Nil NoElem);
    ("column", MkSchema TypeInt false true false Nil NoElem);
    ("width", MkSchema TypeInt false true false (Int 12) NoElem);
    ("height", MkSchema TypeInt false true false (Int 1) NoElem) ].

(** Lines 89-108. *)
Definition variable_Elem : list (string * Schema) :=
  [ ("property", MkSchema TypeString true false false Nil NoElem);
    ("alias", MkSchema TypeString true false false Nil NoElem);
    ("values", MkSchema TypeSet true false false Nil strings_Elem) ].

(** Lines 114-134. *)
Definition filter_Elem : list (string * Schema) :=
  [ ("property", MkSchema TypeString true false false Nil NoElem);
    ("negated", MkSchema TypeBool false true false (Bool false) NoElem);
    ("values", MkSchema TypeSet true false false Nil strings_Elem) ].

(** The [Schema] field of [dashboardResource] (lines 13-136). *)
Definition dashboardResource_Schema : list (string * Schema) :=
  [ ("synced", MkSchema TypeInt false false true Nil NoElem);
    ("last_updated", MkSchema TypeFloat false false true Nil NoElem);
    ("name", MkSchema TypeString true false false Nil NoElem);
    ("description", MkSchema TypeString false true false Nil NoElem);
    ("dashboard_group", MkSchema TypeString true false false Nil NoElem);
    ("time_start", MkSchema TypeInt false true false Nil NoElem);
    ("time_end", MkSchema TypeInt false true false Nil NoElem);
    ("chart", MkSchema TypeSet false true false Nil (ElemResource chart_Elem));
    ("variable", MkSchema TypeSet false true false Nil (ElemResource variable_Elem));
    ("filter", MkSchema TypeSet false true false Nil (ElemResource filter_Elem)) ].

Fixpoint attribute (key : string) (table : list (string * Schema)) : option Schema :=
  match table with
  | [] => None
  | (k, s) :: table' => if decide (k = key) then Some s else attribute key table'
  end.

(** The zero value of a schema type. *)
Definition Zero (ty : ValueType) : any :=
  match ty with
  | TypeBool => Bool false
  | TypeInt => Int 0
  | TypeFloat => Float 0
  | TypeString => Str ""
  | TypeSet => SetOf []
  end.

Definition is_Zero (v : any) : bool :=
  match v with
  | Bool false | Str EmptyString | SetOf [] => true
  | Int n | Float n => (n =? 0)%Z
  | _ => false
  end.

(** Whether a value is one the reader of helper/schema hands out for an
    attribute of schema [s]: the dynamic type of [s], every element of a
    set of the type of [Elem], and every element of a set of resources a
    map holding each attribute of the resource. *)
Fixpoint has_type (s : Schema) (v : any) {struct s} : bool :=
  match s with
  | MkSchema ty _ _ _ _ el =>
      match ty, v with
      | TypeBool, Bool _ | TypeInt, Int _ | TypeFloat, Float _
      | TypeString, Str _ => true
      | TypeSet, SetOf l =>
          match el with
          | NoElem => false
          | ElemSchema s' => forallb (has_type s') l
          | ElemResource fields =>
              forallb
                (fun x =>
                   match x with
                   | MapOf m =>
                       forallb
                         (fun kf =>
                            match m !! kf.1 with
                            | Some vk => has_type kf.2 vk
                            | None => false
                            end) fields
                   | _ => false
                   end) l
          end
      | _, _ => false
      end
  end.

(** The attributes of a resource as the reader holds them: the keys that
    are set, with their values. *)
Definition conforms (d : gmap string any) : Prop :=
  ∀ key s v, attribute key dashboardResource_Schema = Some s →
             d !! key = Some v → has_type s v = true.

(** [d.Get(key)]: the value of a declared attribute, its zero value when
    it is not set; [nil] for a key the schema does not declare. *)
Definition Get (d : gmap string any) (key : string) : any :=
  match attribute key dashboardResource_Schema with
  | None => Nil
  | Some s => default (Zero (Type_ s)) (d !! key)
  end.

(** [d.GetOk(key)]: the value as [Get] gives it, and whether the key is
    set to something other than the zero value. *)
Definition GetOk (d : gmap string any) (key : string) : any * bool :=
  match attribute key dashboardResource_Schema, d !! key with
  | Some s, Some v => (v, negb (is_Zero v))
  | Some s, None => (Zero (Type_ s), false)
  | None, _ => (Nil, false)
  end.

(** [m[key]] on a Go map: [nil] when the key is absent. *)
Definition index (m : gmap string any) (key : string) : any := default Nil (m !! key).

(** The type assertions [v.(string)], [v.(int)], [v.(bool)], the one to a
    [*schema.Set] followed by [List()], and [v.(map[string]interface{})]. *)
Definition assert_string (v : any) : option string :=
  match v with Str s => Some s | _ => None end.

Definition assert_int (v : any) : option Z :=
  match v with Int n => Some n | _ => None end.

Definition assert_bool (v : any) : option bool :=
  match v with Bool b => Some b | _ => None end.

Definition assert_Set_List (v : any) : option (list any) :=
  match v with SetOf l => Some l | _ => None end.

Definition assert_map (v : any) : option (gmap string any) :=
  match v with MapOf m => Some m | _ => None end.

Definition Maps (l : list (gmap string any)) : any := Slice (MapOf <$> l).

Definition getDashboardTime (d : gmap string any) : option (gmap string any) :=
  let time : gmap string any := ∅ in
  time ← match GetOk d "time_start" with
         | (val, true) =>
             val ← assert_int val; Some (<["start" := Int (Go.mul val 1000)]> time)
         | (_, false) => Some time
         end;
  time ← match GetOk d "time_end" with
         | (val, true) =>
             val ← assert_int val; Some (<["end" := Int (Go.mul val 1000)]> time)
         | (_, false) => Some time
         end;
  Some (if decide (0 < size time) then time else ∅).

Definition chart_item (chart : any) : option (gmap string any) :=
  chart ← assert_map chart;
  let item : gmap string any := ∅ in
  v ← assert_string (index chart "chart_id");
  let item := <["chartId" := Str v]> item in
  v ← assert_int (index chart "row");
  let item := <["row" := Int v]> item in
  v ← assert_int (index chart "column");
  let item := <["column" := Int v]> item in
  v ← assert_int (index chart "height");
  let item := <["height" := Int v]> item in
  v ← assert_int (index chart "width");
  let item := <["width" := Int v]> item in
  Some item.

Definition variable_item (variable : any) : option (gmap string any) :=
  variable ← assert_map variable;
  let item : gmap string any := ∅ in
  v ← assert_string (index variable "property");
  let item := <["property" := Str v]> item in
  v ← assert_string (index variable "alias");
  let item := <["alias" := Str v]> item in
  v ← assert_Set_List (index variable "values");
  let item := <["value" := Slice v]> item in
  Some item.

Definition filter_item (filter : any) : option (gmap string any) :=
  filter ← assert_map filter;
  let item : gmap string any := ∅ in
  v ← assert_string (index filter "property");
  let item := <["property" := Str v]> item in
  v ← assert_bool (index filter "negated");
  let item := <["NOT" := Bool v]> item in
  v ← assert_Set_List (index filter "values");
  let item := <["value" := Slice v]> item in
  Some item.

(** The loop of the three array builders: a panic in one round ends it. *)
Definition fill (item_of : any → option (gmap string any)) (xs : list any) :
    option (list (gmap string any)) :=
  range (fun i x st => slice ← st; item ← item_of x; Some (<[i := item]> slice))
        xs (Some (replicate (length xs) ∅)).

Definition getDashboardCharts (d : gmap string any) : option (list (gmap string any)) :=
  charts ← assert_Set_List (Get d "chart"); fill chart_item charts.

Definition getDashboardVariables (d : gmap string any) : option (list (gmap string any)) :=
  variables ← assert_Set_List (Get d "variable"); fill variable_item variables.

Definition getDashboardFilters (d : gmap string any) : option (list (gmap string any)) :=
  filters ← assert_Set_List (Get d "filter"); fill filter_item filters.

(** The [all_filters] map of [getPayloadDashboard] (lines 155-164), or a
    panic of one of the three builders. *)
Definition all_filters (d : gmap string any) : option (gmap string any) :=
  let all_filters : gmap string any := ∅ in
  filters ← getDashboardFilters d;
  let all_filters :=
    if decide (0 < length filters) then <["sources" := Maps filters]> all_filters
    else all_filters in
  variables ← getDashboardVariables d;
  let all_filters :=
    if decide (0 < length variables) then <["variables" := Maps variables]> all_filters
    else all_filters in
  time ← getDashboardTime d;
  let all_filters :=
    if decide (0 < size time) then <["time" := MapOf time]> all_filters
    else all_filters in
  Some all_filters.

(** The map [getPayloadDashboard] hands to [json.Marshal], or a panic. *)
Definition payload (d : gmap string any) : option (gmap string any) :=
  name ← assert_string (Get d "name");
  description ← assert_string (Get d "description");
  groupId ← assert_string (Get d "dashboard_group");
  let payload : gmap string any :=
    <["groupId" := Str groupId]>
      (<["description" := Str description]> (<["name" := Str name]> ∅)) in
  all_filters ← all_filters d;
  let payload :=
    if decide (0 < size all_filters) then <["filters" := MapOf all_filters]> payload
    else payload in
  charts ← getDashboardCharts d;
  let payload :=
    if decide (0 < length charts) then <["charts" := Maps charts]> payload
    else payload in
  Some payload.

End Dyn.

(** ** The typed description as attributes, and payload values as
    [interface{}] *)

Fixpoint inject (v : value) : Dyn.any :=
  match v with
  | VString s => Dyn.Str s
  | VInt n => Dyn.Int n
  | VBool b => Dyn.Bool b
  | VList l => Dyn.Slice (inject <$> l)
  | VMap m => Dyn.MapOf (inject <$> m)
  end.

Definition inject_map (m : gmap string value) : gmap string Dyn.any := inject <$> m.

Definition untyped_strings (s : schema.Set_ string) : Dyn.any :=
  Dyn.SetOf (Dyn.Str <$> schema.List s).

Definition untyped_chart (c : ChartElem.t) : Dyn.any :=
  Dyn.MapOf (<["chart_id" := Dyn.Str (ChartElem.chart_id c)]>
            (<["row" := Dyn.Int (ChartElem.row c)]>
            (<["column" := Dyn.Int (ChartElem.column c)]>
            (<["width" := Dyn.Int (ChartElem.width c)]>
            (<["height" := Dyn.Int (ChartElem.height c)]> ∅))))).

Definition untyped_variable (v : VariableElem.t) : Dyn.any :=
  Dyn.MapOf (<["property" := Dyn.Str (VariableElem.property v)]>
            (<["alias" := Dyn.Str (VariableElem.alias v)]>
            (<["values" := untyped_strings (VariableElem.values v)]> ∅))).

Definition untyped_filter (f : FilterElem.t) : Dyn.any :=
  Dyn.MapOf (<["property" := Dyn.Str (FilterElem.property f)]>
            (<["negated" := Dyn.Bool (FilterElem.negated f)]>
            (<["values" := untyped_strings (FilterElem.values f)]> ∅))).

Definition set_optional (key : string) (v : option Dyn.any) (d : gmap string Dyn.any) :
    gmap string Dyn.any :=
  match v with
  | Some x => <[key := x]> d
  | None => d
  end.

(** The attributes the reader holds for a typed description: an optional
    attribute that is not set has no key. *)
Definition untyped (d : ResourceData) : gmap string Dyn.any :=
  <["synced" := Dyn.Int (synced d)]>
  (<["last_updated" := Dyn.Float (last_updated d)]>
  (<["name" := Dyn.Str (name d)]>
  (set_optional "description" (Dyn.Str <$> description d)
  (<["dashboard_group" := Dyn.Str (dashboard_group d)]>
  (set_optional "time_start" (Dyn.Int <$> time_start d)
  (set_optional "time_end" (Dyn.Int <$> time_end d)
  (<["chart" := Dyn.SetOf (untyped_chart <$> schema.List (chart d))]>
  (<["variable" := Dyn.SetOf (untyped_variable <$> schema.List (variable d))]>
  (<["filter" := Dyn.SetOf (untyped_filter <$> schema.List (filter d))]> ∅))))))))).

(** The eight ways the three optional scalars can be set or not. *)
Ltac case_optional d :=
  unfold untyped;
  destruct (description d), (time_start d), (time_end d); simpl.

(** Cases on an attribute of an element that its schema makes present. *)
Ltac by_lookup m key :=
  let v := fresh "v" in
  destruct (m !! key) as [v|]; [destruct v; try discriminate | discriminate].

(** A decoder of the bytes an encoder produces. *)
Definition Unmarshaler : Type := bytes → option value.

(** The encoder and the decoder are faithful on [v]: from whatever bytes
    the encoder gives for [v], the decoder reads [v] back. *)
Definition faithful_on (json_Marshal : Marshaler) (json_Unmarshal : Unmarshaler)
    (v : value) : Prop :=
  ∀ body, json_Marshal v = Go.Ok body → json_Unmarshal body = Some v.

(** ** JSON text

    [encoding/json] is not part of the repository. What follows renders the
    values of a payload as its documentation describes [Marshal]: an object
    with its keys sorted, no white space, integers in decimal, and strings
    coerced to valid UTF-8, every invalid byte replaced by U+FFFD, with the
    quote, the backslash, control characters, the characters <, > and &,
    and U+2028 and U+2029 escaped. The reader takes such text back to
    a value. They serve as one encoder and decoder the translator can be
    linked with; the theorems on the translator hold for any. Bytes are
    handled as their numbers. *)

Module JSON.

Definition to_byte (n : N) : byte := default x00 (Byte.of_N n).

Definition codes (s : list byte) : list N := Byte.to_N <$> s.

Definition of_codes (s : list N) : list byte := to_byte <$> s.

Definition in_range (lo hi n : N) : bool := (lo <=? n)%N && (n <=? hi)%N.

Definition hex_digit (n : N) : N := if (n <? 10)%N then (48 + n)%N else (87 + n)%N.

(** The six characters of a [\u] escape of a code point below 65536. *)
Definition escape_u (c : N) : list N :=
  [92; 117; hex_digit (c / 4096); hex_digit ((c / 256) `mod` 16);
   hex_digit ((c / 16) `mod` 16); hex_digit (c `mod` 16)]%N.

Definition continuation (n : N) : bool := in_range 128 191 n.

(** The width of the UTF-8 encoding that starts the bytes, as
    [utf8.DecodeRune] accepts it; 0 when the bytes do not start with one. *)
Definition rune_width (s : list N) : nat :=
  match s with
  | [] => 0
  | n0 :: rest =>
      if (n0 <? 128)%N then 1
      else if in_range 194 223 n0 then
        match rest with
        | n1 :: _ => if continuation n1 then 2 else 0
        | _ => 0
        end
      else if in_range 224 239 n0 then
        match rest with
        | n1 :: n2 :: _ =>
            let lo := if (n0 =? 224)%N then 160%N else 128%N in
            let hi := if (n0 =? 237)%N then 159%N else 191%N in
            if in_range lo hi n1 && continuation n2 then 3 else 0
        | _ => 0
        end
      else if in_range 240 244 n0 then
        match rest with
        | n1 :: n2 :: n3 :: _ =>
            let lo := if (n0 =? 240)%N then 144%N else 128%N in
            let hi := if (n0 =? 244)%N then 143%N else 191%N in
            if in_range lo hi n1 && continuation n2 && continuation n3 then 4 else 0
        | _ => 0
        end
      else 0
  end.

(** U+2028 and U+2029 are E2 80 A8 and E2 80 A9. *)
Definition line_separator (s : list N) : option N :=
  match s with
  | n0 :: n1 :: n2 :: _ =>
      if (n0 =? 226)%N && (n1 =? 128)%N && in_range 168 169 n2
      then Some (8232 + (n2 - 168))%N else None
  | _ => None
  end.

(** An ASCII character inside a string. *)
Definition encode_ascii (n : N) : list N :=
  if (n =? 34)%N then [92; 34]%N
  else if (n =? 92)%N then [92; 92]%N
  else if (n =? 10)%N then [92; 110]%N
  else if (n =? 13)%N then [92; 114]%N
  else if (n =? 9)%N then [92; 116]%N
  else if (n =? 60)%N || (n =? 62)%N || (n =? 38)%N || (n <? 32)%N then escape_u n
  else [n].

(** Where the string encoder stands: looking at the start of a character,
    copying the rest of a character it accepted, or dropping the rest of
    one it has written as an escape. *)
Inductive mode : Type := Scan | Copy (k : nat) | Drop (k : nat).

Fixpoint encode_bytes (m : mode) (s : list N) : list N :=
  match s with
  | [] => []
  | n :: rest =>
      match m with
      | Copy (S k) => n :: encode_bytes (Copy k) rest
      | Drop (S k) => encode_bytes (Drop k) rest
      | _ =>
          if (n <? 128)%N then encode_ascii n ++ encode_bytes Scan rest
          else
            match rune_width s with
            | 0 => escape_u 65533 ++ encode_bytes Scan rest
            | S w =>
                match line_separator s with
                | Some c => escape_u c ++ encode_bytes (Drop w) rest
                | None => n :: encode_bytes (Copy w) rest
                end
            end
      end
  end.

Definition quoted (s : string) : list N :=
  [34%N] ++ encode_bytes Scan (codes (String.list_byte_of_string s)) ++ [34%N].

Definition decimal (n : Z) : list N :=
  codes (String.list_byte_of_string (NilZero.string_of_int (Z.to_int n))).

Fixpoint join (parts : list (list N)) : list N :=
  match parts with
  | [] => []
  | [p] => p
  | p :: parts' => p ++ [44%N] ++ join parts'
  end.

Definition key_le (a b : string * list N) : Prop := String.leb a.1 b.1 = true.

Global Instance key_le_dec : RelDecision key_le.
Proof. intros a b. unfold key_le. apply _. Defined.

Definition member (kv : string * list N) : list N := quoted kv.1 ++ [58%N] ++ kv.2.

Fixpoint render (v : value) : list N :=
  match v with
  | VString s => quoted s
  | VInt n => decimal n
  | VBool true => [116; 114; 117; 101]%N
  | VBool false => [102; 97; 108; 115; 101]%N
  | VList l => [91%N] ++ join (render <$> l) ++ [93%N]
  | VMap m =>
      [123%N]
      ++ join (member <$> merge_sort key_le
                 (map_fold (fun k x members => (k, render x) :: members) [] m))
      ++ [125%N]
  end.

Definition Marshal : Marshaler := fun v => Go.Ok (of_codes (render v)).

(** *** Reading *)

Definition hex_value (n : N) : option N :=
  if in_range 48 57 n then Some (n - 48)%N
  else if in_range 97 102 n then Some (n - 87)%N
  else if in_range 65 70 n then Some (n - 55)%N
  else None.

(** The UTF-8 bytes of a code point below 65536 that is no surrogate. *)
Definition utf8 (c : N) : option (list N) :=
  if (c <? 128)%N then Some [c]
  else if (c <? 2048)%N then Some [192 + c / 64; 128 + c `mod` 64]%N
  else if in_range 55296 57343 c then None
  else Some [224 + c / 4096; 128 + (c / 64) `mod` 64; 128 + c `mod` 64]%N.

(** The character a backslash and [e] stand for. *)
Definition unescape (e : N) : option N :=
  if (e =? 34)%N || (e =? 92)%N || (e =? 47)%N then Some e
  else if (e =? 110)%N then Some 10%N
  else if (e =? 114)%N then Some 13%N
  else if (e =? 116)%N then Some 9%N
  else if (e =? 98)%N then Some 8%N
  else if (e =? 102)%N then Some 12%N
  else None.

(** The bytes of a string up to its closing quote, escapes undone, and
    what follows the quote. *)
Fixpoint read_string (fuel : nat) (s : list N) : option (list N * list N) :=
  match fuel with
  | 0 => None
  | S fuel =>
      match s with
      | [] => None
      | n :: rest =>
          if (n =? 34)%N then Some ([], rest)
          else if (n =? 92)%N then
            match rest with
            | e :: rest' =>
                if (e =? 117)%N then
                  match rest' with
                  | h3 :: h2 :: h1 :: h0 :: rest'' =>
                      d3 ← hex_value h3; d2 ← hex_value h2;
                      d1 ← hex_value h1; d0 ← hex_value h0;
                      bs ← utf8 (d3 * 4096 + d2 * 256 + d1 * 16 + d0)%N;
                      '(str, after) ← read_string fuel rest''; Some (bs ++ str, after)
                  | _ => None
                  end
                else
                  b ← unescape e;
                  '(str, after) ← read_string fuel rest'; Some (b :: str, after)
            | [] => None
            end
          else if (n <? 32)%N then None
          else '(str, after) ← read_string fuel rest; Some (n :: str, after)
      end
  end.

Definition to_string (s : list N) : string := String.string_of_list_byte (of_codes s).

Fixpoint read_digits (acc : Z) (s : list N) : Z * list N :=
  match s with
  | n :: rest =>
      if in_range 48 57 n then read_digits (acc * 10 + Z.of_N (n - 48)) rest
      else (acc, s)
  | [] => (acc, s)
  end.

Definition starts_with_digit (s : list N) : bool :=
  match s with
  | n :: _ => in_range 48 57 n
  | [] => false
  end.

Definition read_int (s : list N) : option (Z * list N) :=
  match s with
  | n :: rest =>
      if (n =? 45)%N then
        if starts_with_digit rest
        then let '(i, after) := read_digits 0 rest in Some ((- i)%Z, after)
        else None
      else if starts_with_digit s then Some (read_digits 0 s) else None
  | [] => None
  end.

(** What follows the prefix [p] in [s], when [s] starts with it. *)
Fixpoint after_prefix (p s : list N) : option (list N) :=
  match p, s with
  | [], _ => Some s
  | a :: p', b :: s' => if (a =? b)%N then after_prefix p' s' else None
  | _ :: _, [] => None
  end.

(** The elements of an array after its opening bracket. *)
Fixpoint read_elements (element : list N → option (value * list N))
    (fuel : nat) (s : list N) : option (list value * list N) :=
  match fuel with
  | 0 => None
  | S fuel =>
      '(v, rest) ← element s;
      match rest with
      | n :: rest' =>
          if (n =? 44)%N then
            '(vs, after) ← read_elements element fuel rest'; Some (v :: vs, after)
          else if (n =? 93)%N then Some ([v], rest')
          else None
      | [] => None
      end
  end.

(** The members of an object after its opening brace. *)
Fixpoint read_members (element : list N → option (value * list N))
    (fuel : nat) (s : list N) : option (gmap string value * list N) :=
  match fuel with
  | 0 => None
  | S fuel =>
      s' ← after_prefix [34%N] s;
      '(key, rest) ← read_string (length s') s';
      rest' ← after_prefix [58%N] rest;
      '(v, rest'') ← element rest';
      match rest'' with
      | n :: rest3 =>
          if (n =? 44)%N then
            '(m, after) ← read_members element fuel rest3;
            Some (<[to_string key := v]> m, after)
          else if (n =? 125)%N then Some ({[to_string key := v]}, rest3)
          else None
      | [] => None
      end
  end.

Fixpoint read_value (fuel : nat) (s : list N) : option (value * list N) :=
  match fuel with
  | 0 => None
  | S fuel =>
      match s with
      | [] => None
      | n :: s' =>
          if (n =? 34)%N then
            '(str, rest) ← read_string (length s') s'; Some (VString (to_string str), rest)
          else if (n =? 116)%N then
            rest ← after_prefix [114; 117; 101]%N s'; Some (VBool true, rest)
          else if (n =? 102)%N then
            rest ← after_prefix [97; 108; 115; 101]%N s'; Some (VBool false, rest)
          else if (n =? 91)%N then
            match after_prefix [93%N] s' with
            | Some rest => Some (VList [], rest)
            | None =>
                '(vs, rest) ← read_elements (read_value fuel) (length s') s';
                Some (VList vs, rest)
            end
          else if (n =? 123)%N then
            match after_prefix [125%N] s' with
            | Some rest => Some (VMap ∅, rest)
            | None =>
                '(m, rest) ← read_members (read_value fuel) (length s') s';
                Some (VMap m, rest)
            end
          else '(i, rest) ← read_int s; Some (VInt i, rest)
      end
  end.

Definition Unmarshal : Unmarshaler :=
  fun body =>
    match read_value (S (length body)) (codes body) with
    | Some (v, []) => Some v
    | _ => None
    end.

End JSON.

(** ** Descriptions at the edge of what the schema admits *)

Module Corner.

(** A filter whose set of values is empty. *)
Definition host_no_values : FilterElem.t :=
  {| FilterElem.property := "host"; FilterElem.negated := false;
     FilterElem.values := Sample.no_set |}.

Definition filter_without_values : ResourceData :=
  {| Id := "Dv3"; synced := 0; last_updated := 0;
     name := "hosts"; description := None; dashboard_group := "Gp7";
     time_start := None; time_end := None;
     chart := Sample.no_set; variable := Sample.no_set;
     filter := {| schema.List := [host_no_values] |} |}.

(** A name that is the single byte FF, which is not UTF-8. *)
Definition name_not_utf8 : ResourceData :=
  {| Id := "Dv4"; synced := 0; last_updated := 0;
     name := String.string_of_list_byte [xff]; description := None;
     dashboard_group := "Gp7";
     time_start := None; time_end := None;
     chart := Sample.no_set; variable := Sample.no_set; filter := Sample.no_set |}.

End Corner.

(** * Properties *)

(** ** Go's [int] *)

Lemma wrap_id (z : Z) : Go.is_int z → Go.wrap z = z.
Proof.
  unfold Go.is_int, Go.wrap, Go.int_min, Go.int_max, Go.int_bits. intros Hz.
  rewrite Z.mod_small; lia.
Qed.

Lemma wrap_is_int (z : Z) : Go.is_int (Go.wrap z).
Proof.
  unfold Go.is_int, Go.wrap, Go.int_min, Go.int_max, Go.int_bits.
  pose proof (Z.mod_pos_bound (z - - 2 ^ 63) (2 ^ 64)) as Hb. lia.
Qed.

Lemma mul_exact (a b : Z) : Go.is_int (a * b) → Go.mul a b = (a * b)%Z.
Proof. apply wrap_id. Qed.

(** ** The [range] loops fill their slice with the image of each element *)

Lemma range_from_fill {A : Type} (f : A → gmap string value) (xs : list A)
    (done_ : list (gmap string value)) :
  range_from (fun i x acc => <[i := f x]> acc) (length done_) xs
    (done_ ++ make_slice (length xs)) = done_ ++ (f <$> xs).
Proof.
  revert done_. induction xs as [|x xs IH]; intros done_; simpl.
  - reflexivity.
  - unfold make_slice in *. simpl.
    rewrite insert_app_r_alt, Nat.sub_diag by reflexivity. simpl.
    specialize (IH (done_ ++ [f x])).
    rewrite length_app, Nat.add_1_r, <- !app_assoc in IH. exact IH.
Qed.

Lemma range_fill {A : Type} (f : A → gmap string value) (xs : list A) :
  range (fun i x acc => <[i := f x]> acc) xs (make_slice (length xs)) = f <$> xs.
Proof. exact (range_from_fill f xs []). Qed.

Lemma getDashboardCharts_fmap (d : ResourceData) :
  getDashboardCharts d = chart_item <$> schema.List (chart d).
Proof. apply range_fill. Qed.

Lemma getDashboardVariables_fmap (d : ResourceData) :
  getDashboardVariables d = variable_item <$> schema.List (variable d).
Proof. apply range_fill. Qed.

Lemma getDashboardFilters_fmap (d : ResourceData) :
  getDashboardFilters d = filter_item <$> schema.List (filter d).
Proof. apply range_fill. Qed.

(** ** The time sub-object *)

Lemma getDashboardTime_start (d : ResourceData) :
  getDashboardTime d !! "start" = VInt <$> time_bound_sent (time_start d).
Proof.
  unfold getDashboardTime, time_bound_sent.
  destruct (time_start d) as [s|], (time_end d) as [e|]; simpl;
    repeat match goal with
    | |- context [(?v =? 0)%Z] => destruct (Z.eqb_spec v 0); simpl
    end; reflexivity.
Qed.

Lemma getDashboardTime_end (d : ResourceData) :
  getDashboardTime d !! "end" = VInt <$> time_bound_sent (time_end d).
Proof.
  unfold getDashboardTime, time_bound_sent.
  destruct (time_start d) as [s|], (time_end d) as [e|]; simpl;
    repeat match goal with
    | |- context [(?v =? 0)%Z] => destruct (Z.eqb_spec v 0); simpl
    end; reflexivity.
Qed.

Lemma getDashboardTime_other (d : ResourceData) (key : string) :
  key ≠ "start" → key ≠ "end" → getDashboardTime d !! key = None.
Proof.
  intros Hs He. unfold getDashboardTime.
  destruct (schema.GetOk_int (time_start d)) as [s [|]],
           (schema.GetOk_int (time_end d)) as [e [|]]; simpl;
    case_decide; simplify_map_eq; reflexivity.
Qed.

Lemma getDashboardTime_size (d : ResourceData) :
  0 < size (getDashboardTime d) ↔
  is_Some (time_bound_sent (time_start d)) ∨ is_Some (time_bound_sent (time_end d)).
Proof.
  unfold getDashboardTime, time_bound_sent.
  destruct (schema.GetOk_int (time_start d)) as [s [|]],
           (schema.GetOk_int (time_end d)) as [e [|]]; simpl;
    (split;
      [ intros H; first [by left; eexists | by right; eexists | by (vm_compute in H; lia)]
      | intros H; first [by (vm_compute; lia) | by destruct H as [[? ?]|[? ?]]] ]).
Qed.

(** ** The [filters] object *)

Lemma positive_length_nonempty {A : Type} (l : list A) : 0 < length l ↔ l ≠ [].
Proof. destruct l; simpl; split; intros; (lia || congruence). Qed.

Lemma getDashboardFilters_length (d : ResourceData) :
  length (getDashboardFilters d) = length (schema.List (filter d)).
Proof. rewrite getDashboardFilters_fmap. apply length_fmap. Qed.

Lemma getDashboardVariables_length (d : ResourceData) :
  length (getDashboardVariables d) = length (schema.List (variable d)).
Proof. rewrite getDashboardVariables_fmap. apply length_fmap. Qed.

Lemma getDashboardCharts_length (d : ResourceData) :
  length (getDashboardCharts d) = length (schema.List (chart d)).
Proof. rewrite getDashboardCharts_fmap. apply length_fmap. Qed.

Lemma filters_nonempty (d : ResourceData) :
  0 < length (getDashboardFilters d) ↔ schema.List (filter d) ≠ [].
Proof. rewrite getDashboardFilters_length. apply positive_length_nonempty. Qed.

Lemma variables_nonempty (d : ResourceData) :
  0 < length (getDashboardVariables d) ↔ schema.List (variable d) ≠ [].
Proof. rewrite getDashboardVariables_length. apply positive_length_nonempty. Qed.

Lemma charts_nonempty (d : ResourceData) :
  0 < length (getDashboardCharts d) ↔ schema.List (chart d) ≠ [].
Proof. rewrite getDashboardCharts_length. apply positive_length_nonempty. Qed.

Lemma all_filters_sources (d : ResourceData) :
  all_filters d !! "sources" =
    if decide (schema.List (filter d) = []) then None
    else Some (VMaps (getDashboardFilters d)).
Proof.
  unfold all_filters.
  pose proof (filters_nonempty d).
  repeat case_decide; simplify_map_eq; try reflexivity; exfalso; tauto.
Qed.

Lemma all_filters_variables (d : ResourceData) :
  all_filters d !! "variables" =
    if decide (schema.List (variable d) = []) then None
    else Some (VMaps (getDashboardVariables d)).
Proof.
  unfold all_filters.
  pose proof (variables_nonempty d).
  repeat case_decide; simplify_map_eq; try reflexivity; exfalso; tauto.
Qed.

Lemma all_filters_time (d : ResourceData) :
  all_filters d !! "time" =
    if decide (0 < size (getDashboardTime d)) then Some (VMap (getDashboardTime d))
    else None.
Proof. unfold all_filters. repeat case_decide; simplify_map_eq; reflexivity. Qed.

Lemma all_filters_other (d : ResourceData) (key : string) :
  key ≠ "sources" → key ≠ "variables" → key ≠ "time" → all_filters d !! key = None.
Proof. intros. unfold all_filters. repeat case_decide; simplify_map_eq; reflexivity. Qed.

Lemma all_filters_size (d : ResourceData) :
  0 < size (all_filters d) ↔
  schema.List (filter d) ≠ [] ∨ schema.List (variable d) ≠ [] ∨
  0 < size (getDashboardTime d).
Proof.
  rewrite <- filters_nonempty, <- variables_nonempty.
  unfold all_filters.
  repeat case_decide;
    rewrite ?map_size_insert, ?lookup_insert_ne, ?lookup_empty, ?map_size_empty
      by discriminate; simpl; lia.
Qed.

Lemma positive_size_nonempty (m : gmap string value) : 0 < size m ↔ m ≠ ∅.
Proof. rewrite <- map_size_non_empty_iff. lia. Qed.

Lemma getDashboardTime_nonempty (d : ResourceData) :
  getDashboardTime d ≠ ∅ ↔
  is_Some (time_bound_sent (time_start d)) ∨ is_Some (time_bound_sent (time_end d)).
Proof. rewrite <- positive_size_nonempty. apply getDashboardTime_size. Qed.

Lemma all_filters_dom (d : ResourceData) :
  dom (all_filters d) ⊆ {["sources"; "variables"; "time"]}.
Proof.
  intros key Hkey. apply elem_of_dom in Hkey.
  destruct (decide (key = "sources")) as [->|?]; [set_solver|].
  destruct (decide (key = "variables")) as [->|?]; [set_solver|].
  destruct (decide (key = "time")) as [->|?]; [set_solver|].
  rewrite all_filters_other in Hkey by assumption. by destruct Hkey.
Qed.

(** ** The payload map *)

Lemma payload_name (d : ResourceData) : payload d !! "name" = Some (VString (name d)).
Proof. unfold payload. repeat case_decide; simplify_map_eq; reflexivity. Qed.

Lemma payload_description (d : ResourceData) :
  payload d !! "description" = Some (VString (schema.Get_string (description d))).
Proof. unfold payload. repeat case_decide; simplify_map_eq; reflexivity. Qed.

Lemma payload_groupId (d : ResourceData) :
  payload d !! "groupId" = Some (VString (dashboard_group d)).
Proof. unfold payload. repeat case_decide; simplify_map_eq; reflexivity. Qed.

Lemma payload_filters (d : ResourceData) :
  payload d !! "filters" =
    if decide (0 < size (all_filters d)) then Some (VMap (all_filters d)) else None.
Proof. unfold payload. repeat case_decide; simplify_map_eq; reflexivity. Qed.

Lemma payload_charts (d : ResourceData) :
  payload d !! "charts" =
    if decide (schema.List (chart d) = []) then None
    else Some (VMaps (getDashboardCharts d)).
Proof.
  unfold payload. pose proof (charts_nonempty d).
  repeat case_decide; simplify_map_eq; try reflexivity; exfalso; tauto.
Qed.

Lemma payload_other (d : ResourceData) (key : string) :
  key ≠ "name" → key ≠ "description" → key ≠ "groupId" →
  key ≠ "filters" → key ≠ "charts" → payload d !! key = None.
Proof. intros. unfold payload. repeat case_decide; simplify_map_eq; reflexivity. Qed.

Lemma payload_dom (d : ResourceData) :
  dom (payload d) ⊆ {["name"; "description"; "groupId"; "filters"; "charts"]}.
Proof.
  intros key Hkey. apply elem_of_dom in Hkey.
  destruct (decide (key = "name")) as [->|?]; [set_solver|].
  destruct (decide (key = "description")) as [->|?]; [set_solver|].
  destruct (decide (key = "groupId")) as [->|?]; [set_solver|].
  destruct (decide (key = "filters")) as [->|?]; [set_solver|].
  destruct (decide (key = "charts")) as [->|?]; [set_solver|].
  rewrite payload_other in Hkey by assumption. by destruct Hkey.
Qed.

Lemma payload_filters_present (d : ResourceData) :
  is_Some (payload d !! "filters") ↔
  getDashboardFilters d ≠ [] ∨ getDashboardVariables d ≠ [] ∨ getDashboardTime d ≠ ∅.
Proof.
  rewrite payload_filters, <- !positive_length_nonempty, <- positive_size_nonempty,
    filters_nonempty, variables_nonempty, <- all_filters_size.
  case_decide; split; intros H'; done.
Qed.

(** ** Top-level keys of the payload *)

Lemma time_bound_sent_is_Some (field : option Z) :
  is_Some (time_bound_sent field) ↔ bound_set field.
Proof.
  unfold time_bound_sent, schema.GetOk_int, bound_set. destruct field as [v|].
  - destruct (Z.eqb_spec v 0) as [->|Hv]; simpl.
    + split; [by intros [? ?]|]. by intros (? & [= <-] & ?).
    + split; [intros _; by exists v|]. intros _. by eexists.
  - split; [by intros [? ?]|]. by intros (? & ? & ?).
Qed.

Lemma payload_filters_present_iff (d : ResourceData) :
  is_Some (payload d !! "filters") ↔
  schema.List (filter d) ≠ [] ∨ schema.List (variable d) ≠ [] ∨
  bound_set (time_start d) ∨ bound_set (time_end d).
Proof.
  rewrite payload_filters_present, getDashboardTime_nonempty, !time_bound_sent_is_Some.
  pose proof (filters_nonempty d) as Hf. pose proof (variables_nonempty d) as Hv.
  rewrite positive_length_nonempty in Hf, Hv. tauto.
Qed.

(** C1. [getPayloadDashboard] encodes the [payload] map, which always
    carries [name], [description] and [groupId] (the value of
    [dashboard_group]). [filters] is present exactly when the description
    has a filter, a variable, or a time bound that is set and not 0, and is
    then an object that holds [sources] exactly when there is a filter (the
    array of the filter entries), [variables] exactly when there is a
    variable (the array of the variable entries), [time] exactly when a
    time bound is set and not 0 (with [start] and [end] exactly for the
    bounds that are), and no other key. [charts] is present exactly when
    the chart set is non-empty, and is then the array of the chart entries.
    A description with no chart, variable, filter or time bound has neither
    a [filters] nor a [charts] key. *)
Theorem payload_top_level_keys (d : ResourceData) :
  (∀ json_Marshal, getPayloadDashboard json_Marshal d = json_Marshal (VMap (payload d))) ∧
  payload d !! "name" = Some (VString (name d)) ∧
  payload d !! "description" = Some (VString (schema.Get_string (description d))) ∧
  payload d !! "groupId" = Some (VString (dashboard_group d)) ∧
  (is_Some (payload d !! "filters") ↔
     schema.List (filter d) ≠ [] ∨ schema.List (variable d) ≠ [] ∨
     bound_set (time_start d) ∨ bound_set (time_end d)) ∧
  (∀ v, payload d !! "filters" = Some v →
     ∃ af, v = VMap af ∧
       af !! "sources" =
         (if decide (schema.List (filter d) = []) then None
          else Some (VMaps (filter_item <$> schema.List (filter d)))) ∧
       af !! "variables" =
         (if decide (schema.List (variable d) = []) then None
          else Some (VMaps (variable_item <$> schema.List (variable d)))) ∧
       (is_Some (af !! "time") ↔ bound_set (time_start d) ∨ bound_set (time_end d)) ∧
       (∀ t, af !! "time" = Some t →
          ∃ time, t = VMap time ∧
            (is_Some (time !! "start") ↔ bound_set (time_start d)) ∧
            (is_Some (time !! "end") ↔ bound_set (time_end d)) ∧
            dom time ⊆ {["start"; "end"]}) ∧
       dom af ⊆ {["sources"; "variables"; "time"]}) ∧
  (is_Some (payload d !! "charts") ↔ schema.List (chart d) ≠ []) ∧
  (∀ v, payload d !! "charts" = Some v →
     v = VMaps (chart_item <$> schema.List (chart d))) ∧
  (schema.List (chart d) = [] → schema.List (variable d) = [] →
   schema.List (filter d) = [] → time_start d = None → time_end d = None →
   payload d !! "filters" = None ∧ payload d !! "charts" = None).
Proof.
  split; [reflexivity|].
  split; [apply payload_name|].
  split; [apply payload_description|].
  split; [apply payload_groupId|].
  split; [apply payload_filters_present_iff|].
  split.
  { intros v Hv. rewrite payload_filters in Hv. case_decide; [|done].
    injection Hv as <-. exists (all_filters d).
    split; [reflexivity|].
    split; [by rewrite all_filters_sources, getDashboardFilters_fmap|].
    split; [by rewrite all_filters_variables, getDashboardVariables_fmap|].
    split.
    { rewrite all_filters_time, <- !time_bound_sent_is_Some, <- getDashboardTime_size.
      case_decide; split; intros H'; done. }
    split; [|apply all_filters_dom].
    intros t Ht. rewrite all_filters_time in Ht. case_decide; [|done].
    injection Ht as <-. exists (getDashboardTime d).
    split; [reflexivity|].
    rewrite getDashboardTime_start, getDashboardTime_end, !fmap_is_Some,
      !time_bound_sent_is_Some.
    split; [reflexivity|]. split; [reflexivity|].
    intros key Hkey. apply elem_of_dom in Hkey.
    destruct (decide (key = "start")) as [->|?]; [set_solver|].
    destruct (decide (key = "end")) as [->|?]; [set_solver|].
    rewrite getDashboardTime_other in Hkey by assumption. by destruct Hkey. }
  split.
  { rewrite payload_charts. case_decide; split; intros H'; done. }
  split.
  { intros v Hv. rewrite payload_charts, getDashboardCharts_fmap in Hv.
    case_decide; [done|]. by injection Hv as <-. }
  intros Hc Hvar Hf Hs He.
  rewrite payload_charts, decide_True by assumption. split; [|reflexivity].
  apply eq_None_not_Some. rewrite payload_filters_present_iff, Hf, Hvar, Hs, He.
  intros [?|[?|[(? & ? & ?)|(? & ? & ?)]]]; done.
Qed.

Lemma payload_top_level_keys_witness :
  (∃ af, payload Sample.full !! "filters" = Some (VMap af) ∧
         af !! "sources" = Some (VMaps [filter_item Sample.filter_host]) ∧
         af !! "variables" = Some (VMaps [variable_item Sample.variable_region]) ∧
         is_Some (af !! "time")) ∧
  payload Sample.full !! "charts" = Some (VMaps [chart_item Sample.chart_abc]) ∧
  payload Sample.bare !! "filters" = None ∧ payload Sample.bare !! "charts" = None.
Proof.
  pose proof (payload_top_level_keys Sample.full)
    as (_ & _ & _ & _ & Hpresent & Hfilters & Hcharts & Hchart & _).
  pose proof (payload_top_level_keys Sample.bare) as (_ & _ & _ & _ & _ & _ & _ & _ & Hbare).
  split.
  { destruct (proj2 Hpresent) as [v Hv]; [left; discriminate|].
    destruct (Hfilters v Hv) as (af & -> & Hs & Hvs & Ht & _).
    exists af. split; [exact Hv|]. split; [exact Hs|]. split; [exact Hvs|].
    apply Ht. left. exists 10%Z. split; [reflexivity | lia]. }
  split.
  { destruct (proj2 Hcharts) as [v Hv]; [discriminate|].
    rewrite Hv. f_equal. by apply Hchart. }
  apply Hbare; reflexivity.
Defined.

(** C10. The top-level keys of the payload lie within [name],
    [description], [groupId], [filters] and [charts]; the payload does not
    depend on the computed attributes [synced] and [last_updated]; and
    [description] is present, as the empty string, when the description is
    not set. *)
Theorem payload_keys_bounded (d : ResourceData) :
  dom (payload d) ⊆ {["name"; "description"; "groupId"; "filters"; "charts"]} ∧
  payload d !! "synced" = None ∧
  payload d !! "last_updated" = None ∧
  (∀ synced' last_updated', payload (with_computed d synced' last_updated') = payload d) ∧
  (description d = None → payload d !! "description" = Some (VString "")).
Proof.
  split; [apply payload_dom|].
  split; [by apply payload_other|].
  split; [by apply payload_other|].
  split; [reflexivity|].
  intros Hd. rewrite payload_description, Hd. reflexivity.
Qed.

Lemma payload_keys_bounded_witness :
  payload Sample.bare !! "description" = Some (VString "").
Proof.
  apply (payload_keys_bounded Sample.bare). reflexivity.
Defined.

(** ** Time bounds *)

Lemma time_bound_sent_set (v : Z) :
  v ≠ 0%Z → time_bound_sent (Some v) = Some (Go.mul v 1000).
Proof.
  intros Hv. unfold time_bound_sent, schema.GetOk_int.
  destruct (Z.eqb_spec v 0); [done|reflexivity].
Qed.

(** C3, as stated, fails: for a start of 9223372036854776 seconds, which is
    an [int], the [start] key is not that number times 1000 but the product
    wrapped around, a negative number. *)
Lemma time_start_product_counterexample :
  time_start Sample.late_start = Some 9223372036854776%Z ∧
  Go.is_int 9223372036854776 ∧
  getDashboardTime Sample.late_start !! "start" = Some (VInt (-9223372036854775616)) ∧
  getDashboardTime Sample.late_start !! "start" ≠ Some (VInt (9223372036854776 * 1000)).
Proof.
  split; [reflexivity|]. split; [vm_compute; split; discriminate|].
  split; [reflexivity|]. vm_compute. discriminate.
Qed.

(** C3, amended. A time bound that is set and not 0 appears under [start]
    (resp. [end]) as the seconds times 1000 computed on [int]: the exact
    product when that fits an [int], the product wrapped around otherwise.
    What is under [start] depends on [time_start] alone and what is under
    [end] on [time_end] alone, so either, both or neither may be present.
    A start of 10 and an end of 20 give [{start: 10000, end: 20000}]. *)
Theorem time_bounds_in_milliseconds (d : ResourceData) :
  (∀ s, time_start d = Some s → s ≠ 0%Z →
     getDashboardTime d !! "start" = Some (VInt (Go.wrap (s * 1000))) ∧
     (Go.is_int (s * 1000) → getDashboardTime d !! "start" = Some (VInt (s * 1000)))) ∧
  (∀ e, time_end d = Some e → e ≠ 0%Z →
     getDashboardTime d !! "end" = Some (VInt (Go.wrap (e * 1000))) ∧
     (Go.is_int (e * 1000) → getDashboardTime d !! "end" = Some (VInt (e * 1000)))) ∧
  (∀ e e', getDashboardTime (with_time d (time_start d) e) !! "start" =
           getDashboardTime (with_time d (time_start d) e') !! "start") ∧
  (∀ s s', getDashboardTime (with_time d s (time_end d)) !! "end" =
           getDashboardTime (with_time d s' (time_end d)) !! "end") ∧
  (∀ key, key ≠ "start" → key ≠ "end" → getDashboardTime d !! key = None) ∧
  (time_start d = Some 10%Z → time_end d = Some 20%Z →
   getDashboardTime d = <["end" := VInt 20000]> (<["start" := VInt 10000]> ∅)).
Proof.
  split.
  { intros s Hs Hne. rewrite getDashboardTime_start, Hs, time_bound_sent_set by done.
    split; [reflexivity|]. intros Hint. simpl. by rewrite mul_exact. }
  split.
  { intros e He Hne. rewrite getDashboardTime_end, He, time_bound_sent_set by done.
    split; [reflexivity|]. intros Hint. simpl. by rewrite mul_exact. }
  split; [intros; by rewrite !getDashboardTime_start|].
  split; [intros; by rewrite !getDashboardTime_end|].
  split; [intros; by apply getDashboardTime_other|].
  intros Hs He. unfold getDashboardTime. rewrite Hs, He. reflexivity.
Qed.

Lemma time_bounds_in_milliseconds_witness :
  getDashboardTime Sample.full !! "start" = Some (VInt 10000) ∧
  getDashboardTime Sample.full !! "end" = Some (VInt 20000) ∧
  getDashboardTime Sample.full = <["end" := VInt 20000]> (<["start" := VInt 10000]> ∅).
Proof.
  pose proof (time_bounds_in_milliseconds Sample.full) as (Hs & He & _ & _ & _ & Hboth).
  destruct (Hs 10%Z) as [_ Hs']; [reflexivity | lia |].
  destruct (He 20%Z) as [_ He']; [reflexivity | lia |].
  split; [apply Hs'; vm_compute; split; discriminate|].
  split; [apply He'; vm_compute; split; discriminate|].
  apply Hboth; reflexivity.
Defined.

(** C9. A time bound set to 0, the epoch, is left out like an unset one:
    [time_start = 0] gives no [start] key and [time_end = 0] no [end] key,
    and the payload is the one of the description without that bound. So a
    description with no filter and no variable whose time bounds are unset
    or 0 has no [filters] key. *)
Theorem epoch_bound_omitted (d : ResourceData) :
  (time_start d = Some 0%Z → getDashboardTime d !! "start" = None) ∧
  (time_end d = Some 0%Z → getDashboardTime d !! "end" = None) ∧
  (∀ e, payload (with_time d (Some 0%Z) e) = payload (with_time d None e)) ∧
  (∀ s, payload (with_time d s (Some 0%Z)) = payload (with_time d s None)) ∧
  (schema.List (filter d) = [] → schema.List (variable d) = [] →
   time_start d = None ∨ time_start d = Some 0%Z →
   time_end d = None ∨ time_end d = Some 0%Z →
   payload d !! "filters" = None).
Proof.
  split; [intros Hs; by rewrite getDashboardTime_start, Hs|].
  split; [intros He; by rewrite getDashboardTime_end, He|].
  split; [reflexivity|]. split; [reflexivity|].
  intros Hf Hv Hs He. apply eq_None_not_Some. rewrite payload_filters_present.
  rewrite getDashboardFilters_fmap, getDashboardVariables_fmap, Hf, Hv.
  rewrite getDashboardTime_nonempty.
  destruct Hs as [-> | ->], He as [-> | ->];
    intros [?|[?|[[? ?]|[? ?]]]]; done.
Qed.

Lemma epoch_bound_omitted_witness :
  getDashboardTime Sample.epoch_start !! "start" = None ∧
  getDashboardTime Sample.epoch_end !! "end" = None ∧
  payload Sample.epoch_start !! "filters" = None ∧
  payload Sample.epoch_end !! "filters" = None.
Proof.
  pose proof (epoch_bound_omitted Sample.epoch_start) as (Hs & _ & _ & _ & Hp).
  pose proof (epoch_bound_omitted Sample.epoch_end) as (_ & He & _ & _ & Hp').
  split; [by apply Hs|]. split; [by apply He|].
  split; [apply Hp | apply Hp']; first [reflexivity | by left | by right].
Defined.

(** ** Entries of the nested groups *)

Lemma fmap_lookup_entry {A : Type} (f : A → gmap string value) (l : list A)
    (i : nat) (x : A) :
  l !! i = Some x → (VMap <$> (f <$> l)) !! i = Some (VMap (f x)).
Proof. intros Hx. by rewrite !list_lookup_fmap, Hx. Qed.

(** C5. The element of the [sources] array at the position of a filter
    entry has [property] as in the entry, [NOT] equal to its [negated] flag
    and [value] equal to the list of its [values], and no other key; the
    array has one element per entry. *)
Theorem filter_entry_translation (d : ResourceData) (i : nat) (f : FilterElem.t) :
  schema.List (filter d) !! i = Some f →
  ∃ af sources item,
    payload d !! "filters" = Some (VMap af) ∧
    af !! "sources" = Some (VList sources) ∧
    length sources = length (schema.List (filter d)) ∧
    sources !! i = Some (VMap item) ∧
    item !! "property" = Some (VString (FilterElem.property f)) ∧
    item !! "NOT" = Some (VBool (FilterElem.negated f)) ∧
    item !! "value" = Some (VStrings (schema.List (FilterElem.values f))) ∧
    dom item = {["property"; "NOT"; "value"]}.
Proof.
  intros Hf.
  assert (schema.List (filter d) ≠ []) as Hne by (intros E; by rewrite E in Hf).
  exists (all_filters d), (VMap <$> getDashboardFilters d), (filter_item f).
  split.
  { rewrite payload_filters, decide_True; [reflexivity|].
    apply all_filters_size. by left. }
  split; [by rewrite all_filters_sources, decide_False|].
  split; [by rewrite length_fmap, getDashboardFilters_length|].
  split; [rewrite getDashboardFilters_fmap; by apply fmap_lookup_entry|].
  repeat split; vm_compute; reflexivity.
Qed.

Lemma filter_entry_translation_witness :
  ∃ af sources item,
    payload Sample.full !! "filters" = Some (VMap af) ∧
    af !! "sources" = Some (VList sources) ∧
    length sources = 1 ∧
    sources !! 0 = Some (VMap item) ∧
    item !! "property" = Some (VString "host") ∧
    item !! "NOT" = Some (VBool true) ∧
    item !! "value" = Some (VList [VString "a"; VString "b"]) ∧
    dom item = {["property"; "NOT"; "value"]}.
Proof.
  apply (filter_entry_translation Sample.full 0 Sample.filter_host). reflexivity.
Defined.

(** C6. The element of the [charts] array at the position of a chart entry
    has [chartId] equal to the entry's [chart_id] and [row], [column],
    [height] and [width] equal to the entry's integers, and no other key;
    the array has one element per entry. *)
Theorem chart_entry_translation (d : ResourceData) (i : nat) (c : ChartElem.t) :
  schema.List (chart d) !! i = Some c →
  ∃ charts item,
    payload d !! "charts" = Some (VList charts) ∧
    length charts = length (schema.List (chart d)) ∧
    charts !! i = Some (VMap item) ∧
    item !! "chartId" = Some (VString (ChartElem.chart_id c)) ∧
    item !! "row" = Some (VInt (ChartElem.row c)) ∧
    item !! "column" = Some (VInt (ChartElem.column c)) ∧
    item !! "height" = Some (VInt (ChartElem.height c)) ∧
    item !! "width" = Some (VInt (ChartElem.width c)) ∧
    dom item = {["chartId"; "row"; "column"; "height"; "width"]}.
Proof.
  intros Hc.
  assert (schema.List (chart d) ≠ []) as Hne by (intros E; by rewrite E in Hc).
  exists (VMap <$> getDashboardCharts d), (chart_item c).
  split; [by rewrite payload_charts, decide_False|].
  split; [by rewrite length_fmap, getDashboardCharts_length|].
  split; [rewrite getDashboardCharts_fmap; by apply fmap_lookup_entry|].
  repeat split; vm_compute; reflexivity.
Qed.

Lemma chart_entry_translation_witness :
  ∃ charts item,
    payload Sample.full !! "charts" = Some (VList charts) ∧
    length charts = 1 ∧
    charts !! 0 = Some (VMap item) ∧
    item !! "chartId" = Some (VString "abc") ∧
    item !! "row" = Some (VInt 0) ∧
    item !! "column" = Some (VInt 0) ∧
    item !! "height" = Some (VInt 1) ∧
    item !! "width" = Some (VInt 12) ∧
    dom item = {["chartId"; "row"; "column"; "height"; "width"]}.
Proof.
  apply (chart_entry_translation Sample.full 0 Sample.chart_abc). reflexivity.
Defined.

(** C7. The element of the [variables] array at the position of a variable
    entry has [value] equal to the list of the entry's [values] and
    [property] and [alias] equal to the entry's strings, and no other key;
    the array has one element per entry. *)
Theorem variable_entry_translation (d : ResourceData) (i : nat) (v : VariableElem.t) :
  schema.List (variable d) !! i = Some v →
  ∃ af variables item,
    payload d !! "filters" = Some (VMap af) ∧
    af !! "variables" = Some (VList variables) ∧
    length variables = length (schema.List (variable d)) ∧
    variables !! i = Some (VMap item) ∧
    item !! "property" = Some (VString (VariableElem.property v)) ∧
    item !! "alias" = Some (VString (VariableElem.alias v)) ∧
    item !! "value" = Some (VStrings (schema.List (VariableElem.values v))) ∧
    dom item = {["property"; "alias"; "value"]}.
Proof.
  intros Hv.
  assert (schema.List (variable d) ≠ []) as Hne by (intros E; by rewrite E in Hv).
  exists (all_filters d), (VMap <$> getDashboardVariables d), (variable_item v).
  split.
  { rewrite payload_filters, decide_True; [reflexivity|].
    apply all_filters_size. right. by left. }
  split; [by rewrite all_filters_variables, decide_False|].
  split; [by rewrite length_fmap, getDashboardVariables_length|].
  split; [rewrite getDashboardVariables_fmap; by apply fmap_lookup_entry|].
  repeat split; vm_compute; reflexivity.
Qed.

Lemma variable_entry_translation_witness :
  ∃ af variables item,
    payload Sample.full !! "filters" = Some (VMap af) ∧
    af !! "variables" = Some (VList variables) ∧
    length variables = 1 ∧
    variables !! 0 = Some (VMap item) ∧
    item !! "property" = Some (VString "region") ∧
    item !! "alias" = Some (VString "Region") ∧
    item !! "value" = Some (VList [VString "eu"; VString "us"]) ∧
    dom item = {["property"; "alias"; "value"]}.
Proof.
  apply (variable_entry_translation Sample.full 0 Sample.variable_region). reflexivity.
Defined.

(** ** Lifecycle handlers *)

Lemma run_tail_call {W : Type} (helper : HelperCall → W → Go.error * W)
    (c : HelperCall) (w : W) :
  run helper (tail_call c) w = ((helper c w).1, (helper c w).2, [c]).
Proof. unfold tail_call. simpl. by destruct (helper c w). Qed.

(** C4. In create and update, when building the payload fails the handler
    returns an error at once, the helper is not called and the world is
    left as it was; when it succeeds the helper is called exactly once,
    with that payload, and its error (or [nil]) is the handler's result. *)
Theorem payload_error_handling {W : Type} (json_Marshal : Marshaler)
    (helper : HelperCall → W → Go.error * W)
    (d : ResourceData) (meta : signalformConfig) (w : W) :
  (∀ msg, getPayloadDashboard json_Marshal d = Go.Err msg →
     run helper (dashboardCreate json_Marshal d meta) w =
       (Some ("Failed creating json payload: " +:+ msg), w, []) ∧
     run helper (dashboardUpdate json_Marshal d meta) w =
       (Some ("Failed creating json payload: " +:+ msg), w, [])) ∧
  (∀ body, getPayloadDashboard json_Marshal d = Go.Ok body →
     (let c := resourceCreate DASHBOARD_API_URL (SfxToken meta) body d in
      run helper (dashboardCreate json_Marshal d meta) w =
        ((helper c w).1, (helper c w).2, [c])) ∧
     (let c := resourceUpdate (DASHBOARD_API_URL +:+ "/" +:+ Id d) (SfxToken meta) body d in
      run helper (dashboardUpdate json_Marshal d meta) w =
        ((helper c w).1, (helper c w).2, [c]))).
Proof.
  split.
  - intros msg Hmsg. unfold dashboardCreate, dashboardUpdate. by rewrite Hmsg.
  - intros body Hbody. unfold dashboardCreate, dashboardUpdate. rewrite Hbody.
    split; apply run_tail_call.
Qed.

Lemma payload_error_handling_witness :
  (run Sample.helper_unreachable
     (dashboardCreate Sample.marshal_fails Sample.full Sample.config) 0 =
     (Some "Failed creating json payload: unsupported type", 0, []) ∧
   run Sample.helper_unreachable
     (dashboardUpdate Sample.marshal_fails Sample.full Sample.config) 0 =
     (Some "Failed creating json payload: unsupported type", 0, [])) ∧
  (run Sample.helper_unreachable
     (dashboardCreate Sample.marshal_ok Sample.full Sample.config) 0 =
     (Some "connection refused", 1,
      [resourceCreate "https://api.signalfx.com/v2/dashboard" "tok" [x7b; x7d] Sample.full]) ∧
   run Sample.helper_unreachable
     (dashboardUpdate Sample.marshal_ok Sample.full Sample.config) 0 =
     (Some "connection refused", 1,
      [resourceUpdate "https://api.signalfx.com/v2/dashboard/Dv2" "tok" [x7b; x7d] Sample.full])).
Proof.
  split.
  - apply (payload_error_handling Sample.marshal_fails Sample.helper_unreachable
             Sample.full Sample.config 0). reflexivity.
  - apply (payload_error_handling Sample.marshal_ok Sample.helper_unreachable
             Sample.full Sample.config 0). reflexivity.
Defined.

(** C8. Read and delete call the helper once, on the dashboard endpoint
    followed by "/" and the resource's id; update, when it calls the
    helper, uses that same URL, and create the bare endpoint
    https://api.signalfx.com/v2/dashboard. Every call carries the auth token
    of the provider configuration. *)
Theorem handler_urls_and_token {W : Type} (json_Marshal : Marshaler)
    (helper : HelperCall → W → Go.error * W)
    (d : ResourceData) (meta : signalformConfig) (w : W) :
  DASHBOARD_API_URL = "https://api.signalfx.com/v2/dashboard" ∧
  calls_of helper (dashboardRead d meta) w =
    [resourceRead (DASHBOARD_API_URL +:+ "/" +:+ Id d) (SfxToken meta) d] ∧
  calls_of helper (dashboardDelete d meta) w =
    [resourceDelete (DASHBOARD_API_URL +:+ "/" +:+ Id d) (SfxToken meta) d] ∧
  Forall (fun c => call_url c = DASHBOARD_API_URL +:+ "/" +:+ Id d ∧
                   call_token c = SfxToken meta)
    (calls_of helper (dashboardUpdate json_Marshal d meta) w) ∧
  Forall (fun c => call_url c = DASHBOARD_API_URL ∧ call_token c = SfxToken meta)
    (calls_of helper (dashboardCreate json_Marshal d meta) w) ∧
  (∀ body, getPayloadDashboard json_Marshal d = Go.Ok body →
     calls_of helper (dashboardUpdate json_Marshal d meta) w =
       [resourceUpdate (DASHBOARD_API_URL +:+ "/" +:+ Id d) (SfxToken meta) body d] ∧
     calls_of helper (dashboardCreate json_Marshal d meta) w =
       [resourceCreate DASHBOARD_API_URL (SfxToken meta) body d]).
Proof.
  unfold calls_of, dashboardRead, dashboardDelete, dashboardUpdate, dashboardCreate.
  split; [reflexivity|].
  split; [by rewrite run_tail_call|].
  split; [by rewrite run_tail_call|].
  split; [|split].
  - destruct (getPayloadDashboard json_Marshal d); [rewrite run_tail_call|]; simpl.
    + by repeat constructor.
    + constructor.
  - destruct (getPayloadDashboard json_Marshal d); [rewrite run_tail_call|]; simpl.
    + by repeat constructor.
    + constructor.
  - intros body ->. by rewrite !run_tail_call.
Qed.

Lemma handler_urls_and_token_witness :
  calls_of Sample.helper_unreachable
    (dashboardUpdate Sample.marshal_ok Sample.full Sample.config) 0 =
    [resourceUpdate "https://api.signalfx.com/v2/dashboard/Dv2" "tok" [x7b; x7d] Sample.full] ∧
  calls_of Sample.helper_unreachable
    (dashboardCreate Sample.marshal_ok Sample.full Sample.config) 0 =
    [resourceCreate "https://api.signalfx.com/v2/dashboard" "tok" [x7b; x7d] Sample.full].
Proof.
  apply (handler_urls_and_token Sample.marshal_ok Sample.helper_unreachable
           Sample.full Sample.config 0). reflexivity.
Defined.

(** ** Reading the payload back *)

Lemma string_set_VStrings (s : schema.Set_ string) :
  Reparse.string_set (VStrings (schema.List s)) = Some s.
Proof.
  destruct s as [l]. unfold Reparse.string_set, VStrings. simpl.
  by rewrite mapM_fmap_Some.
Qed.

Lemma reparse_chart_item (c : ChartElem.t) : Reparse.chart (VMap (chart_item c)) = Some c.
Proof. by destruct c. Qed.

Lemma reparse_variable_item (v : VariableElem.t) :
  Reparse.variable (VMap (variable_item v)) = Some v.
Proof.
  destruct v as [p a vs]. unfold Reparse.variable, Reparse.field, variable_item. simpl.
  change (<["value" := ?x]> ?m !! "value") with (Some x). simpl.
  change (<["value" := ?x]> ?m !! "property") with (Some (VString p)).
  change (<["value" := ?x]> ?m !! "alias") with (Some (VString a)). simpl.
  by rewrite string_set_VStrings.
Qed.

Lemma reparse_filter_item (f : FilterElem.t) :
  Reparse.filter (VMap (filter_item f)) = Some f.
Proof.
  destruct f as [p n vs]. unfold Reparse.filter, Reparse.field, filter_item. simpl.
  change (<["value" := ?x]> ?m !! "value") with (Some x). simpl.
  change (<["value" := ?x]> ?m !! "property") with (Some (VString p)).
  change (<["value" := ?x]> ?m !! "NOT") with (Some (VBool n)). simpl.
  by rewrite string_set_VStrings.
Qed.

Lemma reparse_entries {A : Type} (item : A → gmap string value)
    (read : value → option A) (l : list A) :
  (∀ x, read (VMap (item x)) = Some x) → mapM read (VMap <$> (item <$> l)) = Some l.
Proof. intros Hread. rewrite <- list_fmap_compose. by apply mapM_fmap_Some. Qed.

Lemma reparse_filters_object (d : ResourceData) :
  Reparse.filters_object (payload d) = Some (all_filters d).
Proof.
  unfold Reparse.filters_object. rewrite payload_filters. case_decide; [reflexivity|].
  f_equal. symmetry. apply map_size_empty_iff. lia.
Qed.





(** Faithfulness is needed, and an encoder that coerces strings to UTF-8 is
    not faithful on every payload: for a name that is the byte FF the JSON
    text holds the escape of U+FFFD, and the name read back is the three
    bytes EF BF BD. *)
Lemma coerced_name_reads_back_changed :
  ∃ p, JSON.Unmarshal
         (JSON.of_codes (JSON.render (VMap (payload Corner.name_not_utf8)))) =
         Some (VMap p) ∧
       Reparse.name p = Some (String.string_of_list_byte [xef; xbf; xbd]) ∧
       Reparse.name p ≠ Some (name Corner.name_not_utf8) ∧
       ¬ faithful_on JSON.Marshal JSON.Unmarshal (VMap (payload Corner.name_not_utf8)).
Proof.
  eexists. split; [vm_compute; reflexivity|].
  split; [reflexivity|]. split; [discriminate|].
  intros Hfaithful. specialize (Hfaithful _ eq_refl). vm_compute in Hfaithful.
  discriminate.
Qed.

(** * Further properties of the translation *)

(** ** What the payload keeps of a description *)

Lemma getDashboardTime_of_sent (d1 d2 : ResourceData) :
  time_bound_sent (time_start d1) = time_bound_sent (time_start d2) →
  time_bound_sent (time_end d1) = time_bound_sent (time_end d2) →
  getDashboardTime d1 = getDashboardTime d2.
Proof.
  intros Hs He. apply map_eq. intros key.
  destruct (decide (key = "start")) as [->|?];
    [by rewrite !getDashboardTime_start, Hs|].
  destruct (decide (key = "end")) as [->|?];
    [by rewrite !getDashboardTime_end, He|].
  by rewrite !getDashboardTime_other.
Qed.

Lemma payload_of_view (d1 d2 : ResourceData) :
  name d1 = name d2 →
  schema.Get_string (description d1) = schema.Get_string (description d2) →
  dashboard_group d1 = dashboard_group d2 →
  schema.List (chart d1) = schema.List (chart d2) →
  schema.List (variable d1) = schema.List (variable d2) →
  schema.List (filter d1) = schema.List (filter d2) →
  time_bound_sent (time_start d1) = time_bound_sent (time_start d2) →
  time_bound_sent (time_end d1) = time_bound_sent (time_end d2) →
  payload d1 = payload d2.
Proof.
  intros Hn Hd Hg Hc Hv Hf Hs He.
  pose proof (getDashboardTime_of_sent d1 d2 Hs He) as Ht.
  unfold payload, all_filters, getDashboardCharts, getDashboardVariables,
    getDashboardFilters.
  by rewrite Hn, Hd, Hg, Hc, Hv, Hf, Ht.
Qed.

Lemma reparse_time_bound (d : ResourceData) (key : string) (field : option Z) :
  getDashboardTime d !! key = VInt <$> time_bound_sent field →
  Reparse.time_bound key (payload d) = time_bound_sent field.
Proof.
  intros Hkey. unfold Reparse.time_bound.
  rewrite reparse_filters_object. simpl. unfold Reparse.field.
  rewrite all_filters_time. case_decide as Hsize; simpl.
  - rewrite Hkey. by destruct (time_bound_sent field).
  - apply Nat.nlt_ge, Nat.le_0_r, map_size_empty_iff in Hsize.
    rewrite Hsize, lookup_empty in Hkey. by destruct (time_bound_sent field).
Qed.

Lemma reparse_charts_payload (d : ResourceData) :
  Reparse.charts (payload d) = Some (schema.List (chart d)).
Proof.
  unfold Reparse.charts, Reparse.group. rewrite payload_charts, getDashboardCharts_fmap.
  case_decide as Hc; simpl; [by rewrite Hc|].
  apply reparse_entries, reparse_chart_item.
Qed.

Lemma reparse_variables_payload (d : ResourceData) :
  Reparse.variables (payload d) = Some (schema.List (variable d)).
Proof.
  unfold Reparse.variables, Reparse.group. rewrite reparse_filters_object. simpl.
  rewrite all_filters_variables, getDashboardVariables_fmap.
  case_decide as Hv; simpl; [by rewrite Hv|].
  apply reparse_entries, reparse_variable_item.
Qed.

Lemma reparse_filters_payload (d : ResourceData) :
  Reparse.filters (payload d) = Some (schema.List (filter d)).
Proof.
  unfold Reparse.filters, Reparse.group. rewrite reparse_filters_object. simpl.
  rewrite all_filters_sources, getDashboardFilters_fmap.
  case_decide as Hf; simpl; [by rewrite Hf|].
  apply reparse_entries, reparse_filter_item.
Qed.

(** X1. Two descriptions have the same payload exactly when they agree on
    the name, the description read with [Get] (unset counts as empty), the
    dashboard group, the listed chart, variable and filter entries, and on
    what is sent for each time bound. Nothing else of a description reaches
    the payload, and nothing of these is lost. *)
Theorem payload_eq_iff (d1 d2 : ResourceData) :
  payload d1 = payload d2 ↔
  name d1 = name d2 ∧
  schema.Get_string (description d1) = schema.Get_string (description d2) ∧
  dashboard_group d1 = dashboard_group d2 ∧
  schema.List (chart d1) = schema.List (chart d2) ∧
  schema.List (variable d1) = schema.List (variable d2) ∧
  schema.List (filter d1) = schema.List (filter d2) ∧
  time_bound_sent (time_start d1) = time_bound_sent (time_start d2) ∧
  time_bound_sent (time_end d1) = time_bound_sent (time_end d2).
Proof.
  split.
  - intros Heq.
    pose proof (payload_name d1) as Hn. pose proof (payload_description d1) as Hd.
    pose proof (payload_groupId d1) as Hg.
    pose proof (reparse_charts_payload d1) as Hc.
    pose proof (reparse_variables_payload d1) as Hv.
    pose proof (reparse_filters_payload d1) as Hf.
    pose proof (reparse_time_bound d1 "start" _ (getDashboardTime_start d1)) as Hs.
    pose proof (reparse_time_bound d1 "end" _ (getDashboardTime_end d1)) as He.
    rewrite Heq in Hn, Hd, Hg, Hc, Hv, Hf, Hs, He.
    rewrite payload_name in Hn. rewrite payload_description in Hd.
    rewrite payload_groupId in Hg. rewrite reparse_charts_payload in Hc.
    rewrite reparse_variables_payload in Hv. rewrite reparse_filters_payload in Hf.
    rewrite (reparse_time_bound d2 "start" _ (getDashboardTime_start d2)) in Hs.
    rewrite (reparse_time_bound d2 "end" _ (getDashboardTime_end d2)) in He.
    repeat split; congruence.
  - intros (Hn & Hd & Hg & Hc & Hv & Hf & Hs & He). by apply payload_of_view.
Qed.

Lemma payload_eq_iff_witness : payload Sample.epoch_start = payload Sample.bare.
Proof. apply (payload_eq_iff Sample.epoch_start Sample.bare). repeat split. Defined.

(** ** Seconds to milliseconds on [int] *)

Lemma mul_1000_exact_iff (s : Z) :
  Go.mul s 1000 = (s * 1000)%Z ↔ (min_exact_seconds ≤ s ≤ max_exact_seconds)%Z.
Proof.
  split.
  - intros Heq. pose proof (wrap_is_int (s * 1000)) as Hint.
    unfold Go.mul in Heq. rewrite Heq in Hint.
    unfold Go.is_int, Go.int_min, Go.int_max, min_exact_seconds, max_exact_seconds in *.
    lia.
  - intros Hs. apply mul_exact.
    unfold Go.is_int, Go.int_min, Go.int_max, min_exact_seconds, max_exact_seconds in *.
    lia.
Qed.

Lemma mul_1000_period (s k : Z) : Go.mul (s + k * 2 ^ 61) 1000 = Go.mul s 1000.
Proof.
  unfold Go.mul, Go.wrap, Go.int_bits. f_equal.
  replace ((s + k * 2 ^ 61) * 1000 - Go.int_min)%Z
    with (s * 1000 - Go.int_min + (k * 125) * 2 ^ 64)%Z by lia.
  apply Z.mod_add. lia.
Qed.

(** X2. For a time bound that is set and not 0, the value sent is exactly
    the seconds times 1000 if and only if the seconds lie between
    -9223372036854775 and 9223372036854775; outside that range the value
    sent differs from the product. *)
Theorem milliseconds_exact_range (d : ResourceData) :
  (∀ s, time_start d = Some s → s ≠ 0%Z →
     getDashboardTime d !! "start" = Some (VInt (s * 1000)) ↔
     (-9223372036854775 ≤ s ≤ 9223372036854775)%Z) ∧
  (∀ e, time_end d = Some e → e ≠ 0%Z →
     getDashboardTime d !! "end" = Some (VInt (e * 1000)) ↔
     (-9223372036854775 ≤ e ≤ 9223372036854775)%Z).
Proof.
  split.
  - intros s Hs Hne. rewrite getDashboardTime_start, Hs, time_bound_sent_set by done.
    simpl. rewrite <- (mul_1000_exact_iff s). split; [|by intros ->].
    intros Heq. by injection Heq.
  - intros e He Hne. rewrite getDashboardTime_end, He, time_bound_sent_set by done.
    simpl. rewrite <- (mul_1000_exact_iff e). split; [|by intros ->].
    intros Heq. by injection Heq.
Qed.

Lemma milliseconds_exact_range_witness :
  getDashboardTime (with_time Sample.bare (Some 9223372036854775%Z) None) !! "start" =
    Some (VInt (9223372036854775 * 1000)) ∧
  getDashboardTime Sample.late_start !! "start" ≠ Some (VInt (9223372036854776 * 1000)).
Proof.
  split.
  - apply (milliseconds_exact_range (with_time Sample.bare (Some 9223372036854775%Z) None));
      [reflexivity | lia | lia].
  - intros Heq.
    apply (milliseconds_exact_range Sample.late_start) in Heq; [lia | reflexivity | lia].
Defined.

(** X3. Multiplying by 1000 on [int] forgets multiples of 2^61: two starts
    that are both not 0 and differ by a multiple of 2^61 seconds give the
    same payload, and so do two such ends; a start that is itself a
    non-zero multiple of 2^61 is sent as [start: 0]. *)
Theorem time_bound_collisions (d : ResourceData) (t k : Z) :
  t ≠ 0%Z → (t + k * 2 ^ 61)%Z ≠ 0%Z →
  (∀ e, payload (with_time d (Some t) e) = payload (with_time d (Some (t + k * 2 ^ 61)%Z) e)) ∧
  (∀ s, payload (with_time d s (Some t)) = payload (with_time d s (Some (t + k * 2 ^ 61)%Z))) ∧
  (k ≠ 0%Z →
   ∀ e, getDashboardTime (with_time d (Some (k * 2 ^ 61)%Z) e) !! "start" = Some (VInt 0)).
Proof.
  intros Ht Htk.
  assert (time_bound_sent (Some t) = time_bound_sent (Some (t + k * 2 ^ 61)%Z)) as Hsent.
  { by rewrite !time_bound_sent_set, mul_1000_period. }
  split; [intros e; by apply payload_of_view|].
  split; [intros s; by apply payload_of_view|].
  intros Hk e. rewrite getDashboardTime_start. simpl.
  rewrite time_bound_sent_set by lia.
  replace (k * 2 ^ 61)%Z with (0 + k * 2 ^ 61)%Z by lia.
  by rewrite mul_1000_period.
Qed.

Lemma time_bound_collisions_witness :
  Go.is_int 1 ∧ Go.is_int 2305843009213693953 ∧
  payload (with_time Sample.bare (Some 1%Z) None) =
    payload (with_time Sample.bare (Some 2305843009213693953%Z) None) ∧
  getDashboardTime (with_time Sample.bare (Some 2305843009213693952%Z) None) !! "start" =
    Some (VInt 0).
Proof.
  split; [vm_compute; split; discriminate|].
  split; [vm_compute; split; discriminate|].
  destruct (time_bound_collisions Sample.bare 1 1) as (Hs & _ & Hz); [lia | lia |].
  split; [exact (Hs None) | apply Hz; lia].
Defined.

(** ** No empty container, no unfilled slot *)

(** X4. The payload never carries an empty container under the keys the
    translator guards: [filters] is never the empty object, [charts] never
    the empty array, and inside [filters] neither [sources] nor [variables]
    is the empty array nor [time] the empty object. *)
Theorem payload_no_empty_container (d : ResourceData) :
  payload d !! "filters" ≠ Some (VMap ∅) ∧
  payload d !! "charts" ≠ Some (VList []) ∧
  all_filters d !! "sources" ≠ Some (VList []) ∧
  all_filters d !! "variables" ≠ Some (VList []) ∧
  all_filters d !! "time" ≠ Some (VMap ∅) ∧
  (∀ af, payload d !! "filters" = Some (VMap af) → af = all_filters d).
Proof.
  split.
  { rewrite payload_filters. case_decide as Hsize; [|done].
    intros Heq. injection Heq as Heq. rewrite Heq in Hsize.
    rewrite map_size_empty in Hsize. lia. }
  split.
  { rewrite payload_charts, getDashboardCharts_fmap. case_decide as Hc; [done|].
    destruct (schema.List (chart d)); [done|]. discriminate. }
  split.
  { rewrite all_filters_sources, getDashboardFilters_fmap. case_decide as Hf; [done|].
    destruct (schema.List (filter d)); [done|]. discriminate. }
  split.
  { rewrite all_filters_variables, getDashboardVariables_fmap. case_decide as Hv; [done|].
    destruct (schema.List (variable d)); [done|]. discriminate. }
  split.
  { rewrite all_filters_time. case_decide as Hsize; [|done].
    intros Heq. injection Heq as Heq. rewrite Heq in Hsize.
    rewrite map_size_empty in Hsize. lia. }
  intros af Haf. rewrite payload_filters in Haf. case_decide; [|done].
  by injection Haf as <-.
Qed.

Lemma payload_no_empty_container_witness :
  payload Sample.full !! "filters" = Some (VMap (all_filters Sample.full)) ∧
  all_filters Sample.full = all_filters Sample.full.
Proof.
  split; [reflexivity|].
  apply (payload_no_empty_container Sample.full). reflexivity.
Defined.

(** X5. No slot of the three arrays is left as the nil map [make] put
    there: every element of the chart array has exactly the keys [chartId],
    [row], [column], [height], [width], and every element of the variable
    and of the filter array exactly its three keys. An entry whose [values]
    set is empty is kept, with [value] the empty array. *)
Theorem array_slots_filled (d : ResourceData) :
  Forall (fun item => dom item = {["chartId"; "row"; "column"; "height"; "width"]})
    (getDashboardCharts d) ∧
  Forall (fun item => dom item = {["property"; "alias"; "value"]})
    (getDashboardVariables d) ∧
  Forall (fun item => dom item = {["property"; "NOT"; "value"]})
    (getDashboardFilters d) ∧
  (∀ f, f ∈ schema.List (filter d) → schema.List (FilterElem.values f) = [] →
     ∃ item, item ∈ getDashboardFilters d ∧ item !! "value" = Some (VList []) ∧
             item !! "property" = Some (VString (FilterElem.property f))) ∧
  (∀ v, v ∈ schema.List (variable d) → schema.List (VariableElem.values v) = [] →
     ∃ item, item ∈ getDashboardVariables d ∧ item !! "value" = Some (VList []) ∧
             item !! "property" = Some (VString (VariableElem.property v))).
Proof.
  rewrite getDashboardCharts_fmap, getDashboardVariables_fmap, getDashboardFilters_fmap.
  split.
  { apply Forall_forall. intros item Hitem.
    apply list_elem_of_fmap in Hitem as (c & -> & _). vm_compute. reflexivity. }
  split.
  { apply Forall_forall. intros item Hitem.
    apply list_elem_of_fmap in Hitem as (v & -> & _). vm_compute. reflexivity. }
  split.
  { apply Forall_forall. intros item Hitem.
    apply list_elem_of_fmap in Hitem as (f & -> & _). vm_compute. reflexivity. }
  split.
  - intros f Hf Hvals. exists (filter_item f).
    split; [by apply list_elem_of_fmap_2|].
    split; [|reflexivity].
    unfold filter_item. rewrite lookup_insert_eq. unfold VStrings. by rewrite Hvals.
  - intros v Hv Hvals. exists (variable_item v).
    split; [by apply list_elem_of_fmap_2|].
    split; [|reflexivity].
    unfold variable_item. rewrite lookup_insert_eq. unfold VStrings. by rewrite Hvals.
Qed.

Lemma array_slots_filled_witness :
  ∃ item, item ∈ getDashboardFilters Corner.filter_without_values ∧
          item !! "value" = Some (VList []) ∧
          item !! "property" = Some (VString "host").
Proof.
  destruct (array_slots_filled Corner.filter_without_values) as (_ & _ & _ & Hf & _).
  apply (Hf Corner.host_no_values).
  - apply list_elem_of_here.
  - reflexivity.
Defined.

(** ** Handlers *)

(** X6. Read and delete have no local failure: whatever the description,
    they call the helper exactly once and return the helper's error (or
    [nil]) and leave the world as the helper left it. The resource they
    pass on is the one they were given. *)
Theorem read_delete_pass_through {W : Type} (helper : HelperCall → W → Go.error * W)
    (d : ResourceData) (meta : signalformConfig) (w : W) :
  (∃ c, run helper (dashboardRead d meta) w = ((helper c w).1, (helper c w).2, [c]) ∧
        call_resource c = d ∧ call_body c = None) ∧
  (∃ c, run helper (dashboardDelete d meta) w = ((helper c w).1, (helper c w).2, [c]) ∧
        call_resource c = d ∧ call_body c = None).
Proof.
  split; eexists; (split; [apply run_tail_call | split; reflexivity]).
Qed.

(** X7. Create and update hand the encoder the same value, so for one
    description they send the same body or fail with the same message; the
    calls they make differ only in the URL and in which helper is asked. *)
Theorem create_update_same_body {W : Type} (json_Marshal : Marshaler)
    (helper : HelperCall → W → Go.error * W)
    (d : ResourceData) (meta : signalformConfig) (w w' : W) :
  call_body <$> calls_of helper (dashboardCreate json_Marshal d meta) w =
  call_body <$> calls_of helper (dashboardUpdate json_Marshal d meta) w' ∧
  call_resource <$> calls_of helper (dashboardCreate json_Marshal d meta) w =
  call_resource <$> calls_of helper (dashboardUpdate json_Marshal d meta) w' ∧
  call_token <$> calls_of helper (dashboardCreate json_Marshal d meta) w =
  call_token <$> calls_of helper (dashboardUpdate json_Marshal d meta) w' ∧
  (∀ msg, (run helper (dashboardCreate json_Marshal d meta) w).1.1 =
            Some ("Failed creating json payload: " +:+ msg) ∧
          calls_of helper (dashboardCreate json_Marshal d meta) w = [] ↔
          (run helper (dashboardUpdate json_Marshal d meta) w').1.1 =
            Some ("Failed creating json payload: " +:+ msg) ∧
          calls_of helper (dashboardUpdate json_Marshal d meta) w' = []).
Proof.
  unfold calls_of, dashboardCreate, dashboardUpdate.
  destruct (getPayloadDashboard json_Marshal d) as [body|err].
  - rewrite !run_tail_call. simpl.
    do 3 (split; [reflexivity|]). intros msg. split; intros [_ ?]; discriminate.
  - simpl. do 3 (split; [reflexivity|]). intros msg. reflexivity.
Qed.

(** ** The untyped reads *)

Lemma range_from_panicked {A B : Type} (body : nat → A → option B → option B)
    (i : nat) (xs : list A) :
  (∀ j x, body j x None = None) → range_from body i xs None = None.
Proof.
  intros Hbody. revert i. induction xs as [|x xs IH]; intros i; simpl; [done|].
  by rewrite Hbody.
Qed.

Lemma fill_from_mapM (item_of : Dyn.any → option (gmap string Dyn.any))
    (xs : list Dyn.any) (done_ : list (gmap string Dyn.any)) :
  range_from (fun i x st => slice ← st; item ← item_of x; Some (<[i := item]> slice))
    (length done_) xs (Some (done_ ++ replicate (length xs) ∅)) =
  items ← mapM item_of xs; Some (done_ ++ items).
Proof.
  revert done_. induction xs as [|x xs IH]; intros done_; simpl.
  - reflexivity.
  - destruct (item_of x) as [item|]; simpl.
    + rewrite insert_app_r_alt, Nat.sub_diag by reflexivity. simpl.
      specialize (IH (done_ ++ [item])).
      rewrite length_app, Nat.add_1_r, <- !app_assoc in IH. simpl in IH.
      rewrite IH. destruct (mapM item_of xs); simpl; [by rewrite <- app_assoc|done].
    + by apply range_from_panicked.
Qed.

Lemma fill_mapM (item_of : Dyn.any → option (gmap string Dyn.any)) (xs : list Dyn.any) :
  Dyn.fill item_of xs = mapM item_of xs.
Proof.
  unfold Dyn.fill, range. pose proof (fill_from_mapM item_of xs []) as Hfill.
  simpl in Hfill. rewrite Hfill. by destruct (mapM item_of xs).
Qed.

Lemma mapM_fmap_images {A B C : Type} (f : B → option C) (g : A → B) (h : A → C)
    (l : list A) :
  (∀ x, f (g x) = Some (h x)) → mapM f (g <$> l) = Some (h <$> l).
Proof.
  intros Hfg. apply mapM_Some_2, Forall2_fmap, Forall_Forall2_diag, Forall_forall.
  intros x _. apply Hfg.
Qed.

Lemma inject_VMaps (l : list (gmap string value)) :
  inject (VMaps l) = Dyn.Maps (inject_map <$> l).
Proof. unfold VMaps, Dyn.Maps. simpl. by rewrite <- !list_fmap_compose. Qed.

Lemma inject_VStrings (l : list string) :
  inject (VStrings l) = Dyn.Slice (Dyn.Str <$> l).
Proof. unfold VStrings. simpl. by rewrite <- list_fmap_compose. Qed.

Lemma untyped_chart_item (c : ChartElem.t) :
  Dyn.chart_item (untyped_chart c) = Some (inject_map (chart_item c)).
Proof.
  destruct c. unfold inject_map, chart_item. rewrite !fmap_insert, fmap_empty. reflexivity.
Qed.

Lemma untyped_variable_item (v : VariableElem.t) :
  Dyn.variable_item (untyped_variable v) = Some (inject_map (variable_item v)).
Proof.
  destruct v. unfold inject_map, variable_item. rewrite !fmap_insert, fmap_empty, inject_VStrings.
  reflexivity.
Qed.

Lemma untyped_filter_item (f : FilterElem.t) :
  Dyn.filter_item (untyped_filter f) = Some (inject_map (filter_item f)).
Proof.
  destruct f. unfold inject_map, filter_item. rewrite !fmap_insert, fmap_empty, inject_VStrings.
  reflexivity.
Qed.

Lemma Get_untyped_name (d : ResourceData) :
  Dyn.Get (untyped d) "name" = Dyn.Str (name d).
Proof. case_optional d; reflexivity. Qed.

Lemma Get_untyped_description (d : ResourceData) :
  Dyn.Get (untyped d) "description" = Dyn.Str (schema.Get_string (description d)).
Proof. case_optional d; reflexivity. Qed.

Lemma Get_untyped_dashboard_group (d : ResourceData) :
  Dyn.Get (untyped d) "dashboard_group" = Dyn.Str (dashboard_group d).
Proof. case_optional d; reflexivity. Qed.

Lemma Get_untyped_chart (d : ResourceData) :
  Dyn.Get (untyped d) "chart" = Dyn.SetOf (untyped_chart <$> schema.List (chart d)).
Proof. case_optional d; reflexivity. Qed.

Lemma Get_untyped_variable (d : ResourceData) :
  Dyn.Get (untyped d) "variable" =
    Dyn.SetOf (untyped_variable <$> schema.List (variable d)).
Proof. case_optional d; reflexivity. Qed.

Lemma Get_untyped_filter (d : ResourceData) :
  Dyn.Get (untyped d) "filter" = Dyn.SetOf (untyped_filter <$> schema.List (filter d)).
Proof. case_optional d; reflexivity. Qed.

Lemma GetOk_untyped_time_start (d : ResourceData) :
  Dyn.GetOk (untyped d) "time_start" =
    (Dyn.Int (schema.GetOk_int (time_start d)).1, (schema.GetOk_int (time_start d)).2).
Proof. case_optional d; reflexivity. Qed.

Lemma GetOk_untyped_time_end (d : ResourceData) :
  Dyn.GetOk (untyped d) "time_end" =
    (Dyn.Int (schema.GetOk_int (time_end d)).1, (schema.GetOk_int (time_end d)).2).
Proof. case_optional d; reflexivity. Qed.

Lemma untyped_getDashboardCharts (d : ResourceData) :
  Dyn.getDashboardCharts (untyped d) = Some (inject_map <$> getDashboardCharts d).
Proof.
  unfold Dyn.getDashboardCharts. rewrite Get_untyped_chart. simpl.
  rewrite fill_mapM, getDashboardCharts_fmap, <- list_fmap_compose.
  apply mapM_fmap_images, untyped_chart_item.
Qed.

Lemma untyped_getDashboardVariables (d : ResourceData) :
  Dyn.getDashboardVariables (untyped d) = Some (inject_map <$> getDashboardVariables d).
Proof.
  unfold Dyn.getDashboardVariables. rewrite Get_untyped_variable. simpl.
  rewrite fill_mapM, getDashboardVariables_fmap, <- list_fmap_compose.
  apply mapM_fmap_images, untyped_variable_item.
Qed.

Lemma untyped_getDashboardFilters (d : ResourceData) :
  Dyn.getDashboardFilters (untyped d) = Some (inject_map <$> getDashboardFilters d).
Proof.
  unfold Dyn.getDashboardFilters. rewrite Get_untyped_filter. simpl.
  rewrite fill_mapM, getDashboardFilters_fmap, <- list_fmap_compose.
  apply mapM_fmap_images, untyped_filter_item.
Qed.

Lemma untyped_getDashboardTime (d : ResourceData) :
  Dyn.getDashboardTime (untyped d) = Some (inject_map (getDashboardTime d)).
Proof.
  unfold Dyn.getDashboardTime, getDashboardTime.
  rewrite GetOk_untyped_time_start, GetOk_untyped_time_end.
  destruct (schema.GetOk_int (time_start d)) as [s [|]],
           (schema.GetOk_int (time_end d)) as [e [|]]; simpl;
    repeat case_decide; unfold inject_map;
    rewrite ?fmap_insert, ?fmap_empty; try reflexivity;
    rewrite ?map_size_insert, ?lookup_insert_ne, ?lookup_empty, ?map_size_empty in *
      by discriminate; simpl in *; lia.
Qed.

Lemma inject_map_size (m : gmap string value) : size (inject_map m) = size m.
Proof. apply map_size_fmap. Qed.

Lemma inject_map_insert (key : string) (v : value) (m : gmap string value) :
  inject_map (<[key := v]> m) = <[key := inject v]> (inject_map m).
Proof. apply fmap_insert. Qed.

Lemma untyped_all_filters (d : ResourceData) :
  Dyn.all_filters (untyped d) = Some (inject_map (all_filters d)).
Proof.
  unfold Dyn.all_filters, all_filters.
  rewrite untyped_getDashboardFilters, untyped_getDashboardVariables,
    untyped_getDashboardTime. simpl.
  rewrite !length_fmap, inject_map_size.
  repeat case_decide; unfold inject_map;
    rewrite ?fmap_insert, ?fmap_empty, ?inject_VMaps; reflexivity.
Qed.

Lemma attribute_elem (key : string) (s : Dyn.Schema) (table : list (string * Dyn.Schema)) :
  Dyn.attribute key table = Some s → (key, s) ∈ table.
Proof.
  induction table as [|[k s'] table IH]; simpl; [done|].
  case_decide as Hk.
  - intros [= ->]. subst k. apply list_elem_of_here.
  - intros Hs. apply list_elem_of_further, IH, Hs.
Qed.

Lemma conforms_by_table (d : gmap string Dyn.any) :
  Forall (fun ks => ∀ v, d !! ks.1 = Some v → Dyn.has_type ks.2 v = true)
    Dyn.dashboardResource_Schema →
  Dyn.conforms d.
Proof.
  intros Htable key s v Hs Hv. apply attribute_elem in Hs.
  rewrite Forall_forall in Htable. exact (Htable (key, s) Hs v Hv).
Qed.

Lemma forallb_fmap_true {A : Type} (p : Dyn.any → bool) (g : A → Dyn.any) (l : list A) :
  (∀ x, p (g x) = true) → forallb p (g <$> l) = true.
Proof.
  intros Hp. induction l as [|x l IH]; [done|].
  rewrite fmap_cons. cbn [forallb]. rewrite Hp. exact IH.
Qed.

Lemma untyped_lookups (d : ResourceData) :
  untyped d !! "synced" = Some (Dyn.Int (synced d)) ∧
  untyped d !! "last_updated" = Some (Dyn.Float (last_updated d)) ∧
  untyped d !! "name" = Some (Dyn.Str (name d)) ∧
  untyped d !! "description" = Dyn.Str <$> description d ∧
  untyped d !! "dashboard_group" = Some (Dyn.Str (dashboard_group d)) ∧
  untyped d !! "time_start" = Dyn.Int <$> time_start d ∧
  untyped d !! "time_end" = Dyn.Int <$> time_end d ∧
  untyped d !! "chart" = Some (Dyn.SetOf (untyped_chart <$> schema.List (chart d))) ∧
  untyped d !! "variable" =
    Some (Dyn.SetOf (untyped_variable <$> schema.List (variable d))) ∧
  untyped d !! "filter" = Some (Dyn.SetOf (untyped_filter <$> schema.List (filter d))).
Proof. case_optional d; repeat split; reflexivity. Qed.

Lemma untyped_conforms (d : ResourceData) : Dyn.conforms (untyped d).
Proof.
  destruct (untyped_lookups d) as (Hsy & Hlu & Hn & Hd & Hg & Hs & He & Hc & Hv & Hf).
  apply conforms_by_table. unfold Dyn.dashboardResource_Schema.
  repeat apply Forall_cons_2; [..|apply Forall_nil_2]; cbn [fst snd]; intros v.
  - rewrite Hsy. by intros [= <-].
  - rewrite Hlu. by intros [= <-].
  - rewrite Hn. by intros [= <-].
  - rewrite Hd. destruct (description d); by intros [= <-].
  - rewrite Hg. by intros [= <-].
  - rewrite Hs. destruct (time_start d); by intros [= <-].
  - rewrite He. destruct (time_end d); by intros [= <-].
  - rewrite Hc. intros [= <-]. simpl. apply forallb_fmap_true. by intros [].
  - rewrite Hv. intros [= <-]. simpl. apply forallb_fmap_true. intros [p a vs]. simpl.
    change (<["property" := ?x]> ?m !! "property") with (Some x).
    change (<["property" := ?x]> ?m !! "alias") with (Some (Dyn.Str a)).
    change (<["property" := ?x]> ?m !! "values") with (Some (untyped_strings vs)).
    simpl. rewrite Bool.andb_true_r. by apply forallb_fmap_true.
  - rewrite Hf. intros [= <-]. simpl. apply forallb_fmap_true. intros [p n vs]. simpl.
    change (<["property" := ?x]> ?m !! "property") with (Some x).
    change (<["property" := ?x]> ?m !! "negated") with (Some (Dyn.Bool n)).
    change (<["property" := ?x]> ?m !! "values") with (Some (untyped_strings vs)).
    simpl. rewrite Bool.andb_true_r. by apply forallb_fmap_true.
Qed.

(** X8. On the attributes of any typed description the translator as it
    is written, with [d.Get] and type assertions, does not panic, and the
    map it hands to the encoder is the payload of the typed translation. *)
Theorem untyped_payload_agrees (d : ResourceData) :
  Dyn.conforms (untyped d) ∧
  Dyn.payload (untyped d) = Some (inject_map (payload d)).
Proof.
  split; [apply untyped_conforms|].
  unfold Dyn.payload.
  rewrite Get_untyped_name, Get_untyped_description, Get_untyped_dashboard_group,
    untyped_all_filters, untyped_getDashboardCharts. simpl.
  rewrite length_fmap, inject_map_size.
  unfold payload. fold (all_filters d).
  repeat case_decide; unfold inject_map;
    rewrite ?fmap_insert, ?fmap_empty, ?inject_VMaps; reflexivity.
Qed.

Lemma Get_has_type (d : gmap string Dyn.any) (key : string) (s : Dyn.Schema) :
  Dyn.conforms d →
  Dyn.attribute key Dyn.dashboardResource_Schema = Some s →
  Dyn.has_type s (Dyn.Zero (Dyn.Type_ s)) = true →
  Dyn.has_type s (Dyn.Get d key) = true.
Proof.
  intros Hd Hs Hzero. unfold Dyn.Get. rewrite Hs.
  destruct (d !! key) as [v|] eqn:Hv; simpl; [|exact Hzero].
  exact (Hd key s v Hs Hv).
Qed.

Lemma mapM_is_Some_forallb {A B : Type} (p : A → bool) (f : A → option B) (l : list A) :
  (∀ x, p x = true → is_Some (f x)) → forallb p l = true → is_Some (mapM f l).
Proof.
  intros Hpf Hl. apply mapM_is_Some.
  induction l as [|x l IH]; [constructor|].
  cbn [forallb] in Hl. apply andb_prop in Hl as [Hx Hl].
  constructor; [by apply Hpf | by apply IH].
Qed.

Lemma conforms_getDashboardCharts (d : gmap string Dyn.any) :
  Dyn.conforms d → is_Some (Dyn.getDashboardCharts d).
Proof.
  intros Hd. pose proof (Get_has_type d "chart" _ Hd eq_refl eq_refl) as Hty.
  unfold Dyn.getDashboardCharts.
  destruct (Dyn.Get d "chart") as [| | | | | |l|]; try discriminate. simpl in *.
  rewrite fill_mapM. revert Hty. apply mapM_is_Some_forallb.
  intros [| | | | | | |m]; try discriminate.
  unfold Dyn.chart_item, Dyn.index. simpl. rewrite !andb_true_iff.
  intros (H1 & H2 & H3 & H4 & H5 & _).
  by_lookup m "chart_id". by_lookup m "row". by_lookup m "column".
  by_lookup m "width". by_lookup m "height". simpl. by eexists.
Qed.

Lemma conforms_getDashboardVariables (d : gmap string Dyn.any) :
  Dyn.conforms d → is_Some (Dyn.getDashboardVariables d).
Proof.
  intros Hd. pose proof (Get_has_type d "variable" _ Hd eq_refl eq_refl) as Hty.
  unfold Dyn.getDashboardVariables.
  destruct (Dyn.Get d "variable") as [| | | | | |l|]; try discriminate. simpl in *.
  rewrite fill_mapM. revert Hty. apply mapM_is_Some_forallb.
  intros [| | | | | | |m]; try discriminate.
  unfold Dyn.variable_item, Dyn.index. simpl. rewrite !andb_true_iff.
  intros (H1 & H2 & H3 & _).
  by_lookup m "property". by_lookup m "alias". by_lookup m "values".
  simpl. by eexists.
Qed.

Lemma conforms_getDashboardFilters (d : gmap string Dyn.any) :
  Dyn.conforms d → is_Some (Dyn.getDashboardFilters d).
Proof.
  intros Hd. pose proof (Get_has_type d "filter" _ Hd eq_refl eq_refl) as Hty.
  unfold Dyn.getDashboardFilters.
  destruct (Dyn.Get d "filter") as [| | | | | |l|]; try discriminate. simpl in *.
  rewrite fill_mapM. revert Hty. apply mapM_is_Some_forallb.
  intros [| | | | | | |m]; try discriminate.
  unfold Dyn.filter_item, Dyn.index. simpl. rewrite !andb_true_iff.
  intros (H1 & H2 & H3 & _).
  by_lookup m "property". by_lookup m "negated". by_lookup m "values".
  simpl. by eexists.
Qed.

Lemma conforms_GetOk_int (d : gmap string Dyn.any) (key : string) :
  Dyn.conforms d →
  Dyn.attribute key Dyn.dashboardResource_Schema =
    Some (Dyn.MkSchema Dyn.TypeInt false true false Dyn.Nil Dyn.NoElem) →
  ∃ n ok, Dyn.GetOk d key = (Dyn.Int n, ok).
Proof.
  intros Hd Hs. unfold Dyn.GetOk. rewrite Hs.
  destruct (d !! key) as [v|] eqn:Hv; [|by eexists _, _].
  pose proof (Hd key _ v Hs Hv) as Hty. destruct v; try discriminate.
  by eexists _, _.
Qed.

Lemma conforms_getDashboardTime (d : gmap string Dyn.any) :
  Dyn.conforms d → is_Some (Dyn.getDashboardTime d).
Proof.
  intros Hd. unfold Dyn.getDashboardTime.
  destruct (conforms_GetOk_int d "time_start" Hd eq_refl) as (s & oks & ->).
  destruct (conforms_GetOk_int d "time_end" Hd eq_refl) as (e & oke & ->).
  destruct oks, oke; simpl; by eexists.
Qed.

(** X9. Whatever attributes the reader holds, as long as each one that is
    set has the type its schema declares (and the elements of the three
    sets hold every attribute of their resource), no [d.Get] and no type
    assertion of the translator panics: every key the code reads is
    declared in [dashboardResource] with the type the code asserts. *)
Theorem conforming_attributes_do_not_panic (d : gmap string Dyn.any) :
  Dyn.conforms d → is_Some (Dyn.payload d).
Proof.
  intros Hd. unfold Dyn.payload, Dyn.all_filters.
  pose proof (Get_has_type d "name" _ Hd eq_refl eq_refl) as Hn.
  pose proof (Get_has_type d "description" _ Hd eq_refl eq_refl) as Hde.
  pose proof (Get_has_type d "dashboard_group" _ Hd eq_refl eq_refl) as Hg.
  destruct (Dyn.Get d "name"); try discriminate.
  destruct (Dyn.Get d "description"); try discriminate.
  destruct (Dyn.Get d "dashboard_group"); try discriminate. simpl.
  destruct (conforms_getDashboardFilters d Hd) as [filters ->].
  destruct (conforms_getDashboardVariables d Hd) as [variables ->].
  destruct (conforms_getDashboardTime d Hd) as [time ->].
  destruct (conforms_getDashboardCharts d Hd) as [charts ->]. simpl.
  by eexists.
Qed.

Lemma conforming_attributes_do_not_panic_witness :
  is_Some (Dyn.payload (untyped Sample.full)).
Proof.
  apply (conforming_attributes_do_not_panic (untyped Sample.full)).
  apply untyped_conforms.
Defined.
